(** * thesisbr_ckan_httpx: CKAN helpers (listing, filtering, retrying downloads)

    A shallow embedding of [scrapers/thesisbr_ckan_httpx.py] and the
    properties of its filename resolver, resource filter, CKAN client,
    streaming downloader, retry wrapper and orchestrators.

    Conventions of the embedding:
    - a Python [str] is the list of its Unicode code points ([list Z]);
      [bytes] and [bytearray] are lists of byte values;
    - a raised exception is a value of [exn]; [except Exception] catches the
      exceptions whose class derives from [Exception], which
      [KeyboardInterrupt] does not;
    - the outside world (file system, network) is an explicit state threaded
      through the effectful functions, which also give the list of the
      observable actions they perform (output, sleeps, requests). *)

From Stdlib Require Import ZArith QArith List Bool Lia.
From Stdlib Require Import Ascii String DecimalString.
From stdpp Require Import base option list gmap.

Import ListNotations.
Local Open Scope Z_scope.

(* ===================================================================== *)
(** * Python strings *)
(* ===================================================================== *)

Module PyStr.

(** A [str] is a sequence of code points; indexing and [len] count code
    points, as in Python 3. *)
Abbreviation pystr := (list Z).

(** Literal ASCII text of the source as a [str]. *)
Fixpoint py (s : string) : list Z :=
  match s with
  | EmptyString => []
  | String a s' => Z.of_N (N_of_ascii a) :: py s'
  end.
Arguments py : simpl never.

Definition str_eqb (a b : list Z) : bool := bool_decide (a = b).

(** [Py_UNICODE_ISSPACE]: the predicate behind [str.isspace], the default
    [str.strip()] and the [\s] class of [re] on [str] patterns (Unicode
    bidirectional class WS, B or S, or category Zs). *)
Definition isspace (c : Z) : bool :=
  ((9 <=? c) && (c <=? 13)) || ((28 <=? c) && (c <=? 32))
  || (c =? 133) || (c =? 160) || (c =? 5760)
  || ((8192 <=? c) && (c <=? 8202))
  || (c =? 8232) || (c =? 8233) || (c =? 8239) || (c =? 8287) || (c =? 12288).

(** [Py_ISSPACE]: the C-locale ASCII table used by the integer parser. *)
Definition c_isspace (c : Z) : bool := ((9 <=? c) && (c <=? 13)) || (c =? 32).

(** First code points of the runs of ten decimal digits (general category
    Nd) of the Unicode character database, version 14.0. *)
Definition decimal_runs : list Z :=
  [48; 1632; 1776; 1984; 2406; 2534; 2662; 2790; 2918; 3046; 3174; 3302;
   3430; 3558; 3664; 3792; 3872; 4160; 4240; 6112; 6160; 6470; 6608; 6784;
   6800; 6992; 7088; 7232; 7248; 42528; 43216; 43264; 43472; 43504; 43600;
   44016; 65296; 66720; 68912; 69734; 69872; 69942; 70096; 70384; 70736;
   70864; 71248; 71360; 71472; 71904; 72016; 72784; 73040; 73120; 92768;
   92864; 93008; 120782; 120792; 120802; 120812; 120822; 123200; 123632;
   125264; 130032].

(** [Py_UNICODE_TODECIMAL]. *)
Definition todecimal (c : Z) : option Z :=
  match List.find (fun z => (z <=? c) && (c <? z + 10)) decimal_runs with
  | Some z => Some (c - z)
  | None => None
  end.

(** [str.lower] and [str.upper] on the ASCII letters.  Code points outside
    ASCII are left as they are: the case tables of the Unicode database are
    not part of this development. *)
Definition lower_char (c : Z) : Z := if (65 <=? c) && (c <=? 90) then c + 32 else c.
Definition lower (s : list Z) : list Z := List.map lower_char s.

(** [str.strip()] with no argument. *)
Fixpoint lstrip (s : list Z) : list Z :=
  match s with
  | c :: s' => if isspace c then lstrip s' else s
  | [] => []
  end.
Definition rstrip (s : list Z) : list Z := rev (lstrip (rev s)).
Definition strip (s : list Z) : list Z := rstrip (lstrip s).

(** [a.startswith(p)]: on a match, what follows the prefix. *)
Fixpoint strip_prefix (p s : list Z) : option (list Z) :=
  match p, s with
  | [], _ => Some s
  | x :: p', y :: s' => if x =? y then strip_prefix p' s' else None
  | _ :: _, [] => None
  end.
Definition startswith (s p : list Z) : bool :=
  match strip_prefix p s with Some _ => true | None => false end.
Definition endswith (s p : list Z) : bool := startswith (rev s) (rev p).

(** [c in s]. *)
Definition contains (s : list Z) (c : Z) : bool := existsb (Z.eqb c) s.

(** Truth value of a [str]. *)
Definition truthy (s : list Z) : bool :=
  match s with [] => false | _ :: _ => true end.

(** [a or b] on strings. *)
Definition str_or (a b : list Z) : list Z := if truthy a then a else b.

(** [s.replace(" ", "_")]: substitution of one character. *)
Definition replace_char (x y : Z) (s : list Z) : list Z :=
  List.map (fun c => if c =? x then y else c) s.

(** [s.rstrip(chars)] for a single character. *)
Fixpoint lstrip_char (x : Z) (s : list Z) : list Z :=
  match s with
  | c :: s' => if c =? x then lstrip_char x s' else s
  | [] => []
  end.
Definition rstrip_char (x : Z) (s : list Z) : list Z := rev (lstrip_char x (rev s)).

(** [str.upper] on the ASCII letters (see [lower]). *)
Definition upper_char (c : Z) : Z := if (97 <=? c) && (c <=? 122) then c - 32 else c.
Definition upper (s : list Z) : list Z := List.map upper_char s.

(** [a < b] on strings: code point by code point. *)
Fixpoint str_ltb (a b : list Z) : bool :=
  match a, b with
  | _, [] => false
  | [], _ :: _ => true
  | x :: a', y :: b' => (x <? y) || ((x =? y) && str_ltb a' b')
  end.

(** [sorted(set(items))]. *)
Fixpoint insert_sorted (x : list Z) (l : list (list Z)) : list (list Z) :=
  match l with
  | [] => [x]
  | y :: l' =>
      if str_eqb x y then l
      else if str_ltb x y then x :: l
      else y :: insert_sorted x l'
  end.
Definition sorted_set (items : list (list Z)) : list (list Z) :=
  List.fold_right insert_sorted [] items.

(** [str(n)] for a natural number. *)
Definition str_of_nat (n : nat) : list Z :=
  py (DecimalString.NilZero.string_of_uint (Nat.to_uint n)).

End PyStr.
Import PyStr.

(* ===================================================================== *)
(** * [int(text, base)] and the UTF-8 codec *)
(* ===================================================================== *)

Module Codec.

(** [_PyUnicode_TransformDecimalAndSpaceToASCII]: code points below 127 are
    kept, Unicode spaces become a blank, Unicode decimal digits their ASCII
    digit and anything else a question mark (on which parsing fails). *)
Definition to_ascii_digit (c : Z) : Z :=
  if c <? 127 then c
  else if isspace c then 32
  else match todecimal c with Some d => 48 + d | None => 63 end.

(** [_PyLong_DigitValue]. *)
Definition digit_value (c : Z) : Z :=
  if (48 <=? c) && (c <=? 57) then c - 48
  else if (97 <=? c) && (c <=? 122) then c - 97 + 10
  else if (65 <=? c) && (c <=? 90) then c - 65 + 10
  else 37.

Fixpoint skip_c_spaces (s : list Z) : list Z :=
  match s with
  | c :: s' => if c_isspace c then skip_c_spaces s' else s
  | [] => []
  end.

(** The digit loop of [PyLong_FromString]: digits of the base with single
    underscores between them; [prev_us] tells whether the previous character
    was an underscore, [seen] whether a digit was read.  Returns the value
    and what follows the digits. *)
Fixpoint scan_digits (base acc : Z) (seen prev_us : bool) (s : list Z)
  : option (Z * list Z) :=
  match s with
  | c :: s' =>
      if c =? 95 then
        if prev_us then None else scan_digits base acc seen true s'
      else if digit_value c <? base then
        scan_digits base (acc * base + digit_value c) true false s'
      else if prev_us || negb seen then None else Some (acc, s)
  | [] => if prev_us || negb seen then None else Some (acc, [])
  end.

(** [int(text, base)] for base 10 or 16; [None] stands for [ValueError]. *)
Definition py_int (base : Z) (text : list Z) : option Z :=
  let s0 := skip_c_spaces (List.map to_ascii_digit text) in
  let '(neg, s1) :=
    match s0 with
    | 43 :: r => (false, r)
    | 45 :: r => (true, r)
    | _ => (false, s0)
    end in
  let s2 :=
    match s1 with
    | 48 :: x :: r =>
        if (base =? 16) && ((x =? 120) || (x =? 88)) then
          match r with 95 :: r' => r' | _ => r end
        else s1
    | _ => s1
    end in
  match s2 with
  | 95 :: _ => None
  | _ =>
      match scan_digits base 0 false false s2 with
      | Some (v, rest) =>
          match skip_c_spaces rest with
          | [] => Some (if neg then - v else v)
          | _ :: _ => None
          end
      | None => None
      end
  end.

(** [ch.encode("utf-8", "ignore")] for one code point: a lone surrogate has
    no encoding and is dropped. *)
Definition utf8_encode_char (c : Z) : list Z :=
  if c <? 128 then [c]
  else if c <? 2048 then [192 + c / 64; 128 + c mod 64]
  else if (55296 <=? c) && (c <=? 57343) then []
  else if c <? 65536 then [224 + c / 4096; 128 + (c / 64) mod 64; 128 + c mod 64]
  else [240 + c / 262144; 128 + (c / 4096) mod 64; 128 + (c / 64) mod 64;
        128 + c mod 64].

Definition utf8_encode (s : list Z) : list Z := List.concat (List.map utf8_encode_char s).

(** [text.encode("utf-8")]: strict, [None] stands for the
    [UnicodeEncodeError] a lone surrogate raises. *)
Definition utf8_encode_strict (s : list Z) : option (list Z) :=
  if existsb (fun c => (55296 <=? c) && (c <=? 57343)) s then None
  else Some (utf8_encode s).

Definition is_cont (b : Z) : bool := (128 <=? b) && (b <=? 191).

(** U+FFFD REPLACEMENT CHARACTER. *)
Definition replacement : Z := 65533.

(** [data.decode("utf-8", "replace")]: CPython's decoder.  An invalid start
    byte costs one byte, an invalid continuation the bytes before it, a
    truncated sequence at the end of the data what is left; each error
    yields one U+FFFD. *)
Fixpoint utf8_decode_replace (bs : list Z) : list Z :=
  match bs with
  | [] => []
  | b1 :: r1 =>
      if b1 <? 128 then b1 :: utf8_decode_replace r1
      else if b1 <? 194 then replacement :: utf8_decode_replace r1
      else if b1 <? 224 then
        match r1 with
        | [] => [replacement]
        | b2 :: r2 =>
            if is_cont b2
            then ((b1 - 192) * 64 + (b2 - 128)) :: utf8_decode_replace r2
            else replacement :: utf8_decode_replace r1
        end
      else if b1 <? 240 then
        match r1 with
        | [] => [replacement]
        | b2 :: r2 =>
            if negb (is_cont b2)
               || (if b2 <? 160 then b1 =? 224 else b1 =? 237)
            then replacement :: utf8_decode_replace r1
            else
              match r2 with
              | [] => [replacement]
              | b3 :: r3 =>
                  if is_cont b3
                  then ((b1 - 224) * 4096 + (b2 - 128) * 64 + (b3 - 128))
                         :: utf8_decode_replace r3
                  else replacement :: utf8_decode_replace r2
              end
        end
      else if b1 <? 245 then
        match r1 with
        | [] => [replacement]
        | b2 :: r2 =>
            if negb (is_cont b2)
               || (if b2 <? 144 then b1 =? 240 else b1 =? 244)
            then replacement :: utf8_decode_replace r1
            else
              match r2 with
              | [] => [replacement]
              | b3 :: r3 =>
                  if negb (is_cont b3)
                  then replacement :: utf8_decode_replace r2
                  else
                    match r3 with
                    | [] => [replacement]
                    | b4 :: r4 =>
                        if is_cont b4
                        then ((b1 - 240) * 262144 + (b2 - 128) * 4096
                              + (b3 - 128) * 64 + (b4 - 128))
                               :: utf8_decode_replace r4
                        else replacement :: utf8_decode_replace r3
                    end
              end
        end
      else replacement :: utf8_decode_replace r1
  end.

End Codec.
Import Codec.

(* ===================================================================== *)
(** * Percent-decoding and file-name sanitization *)
(* ===================================================================== *)

(** The [while i < len(s)] loop of [pct_decode], on the characters from
    index [i] on.  A [%] with two characters after it ([i + 2 < len(s)]) is
    handed to [int(hexpart, 16)]; the byte is appended when the parse
    succeeds and [bytearray.append] accepts the value (0..255), both failures
    being the [ValueError] the source catches.  Otherwise the character's
    own UTF-8 bytes are appended. *)
Fixpoint pct_loop (s : pystr) : list Z :=
  match s with
  | [] => []
  | ch :: rest =>
      let keep := utf8_encode_char ch ++ pct_loop rest in
      if ch =? 37 then
        match rest with
        | h1 :: h2 :: rest' =>
            match py_int 16 [h1; h2] with
            | Some v =>
                if (0 <=? v) && (v <? 256)
                then v :: pct_loop rest'
                else keep
            | None => keep
            end
        | _ => keep
        end
      else keep
  end.

(** [pct_decode(s)]. *)
Definition pct_decode (s : pystr) : pystr :=
  if negb (truthy s) || negb (contains s 37) then s
  else utf8_decode_replace (pct_loop s).

(** The character class of the first substitution of [sanitize_filename]:
    backslash, slash, colon, asterisk, question mark, double quote, angle
    brackets, vertical bar, CR, LF and TAB. *)
Definition unsafe_char (c : Z) : bool :=
  (c =? 92) || (c =? 47) || (c =? 58) || (c =? 42) || (c =? 63) || (c =? 34)
  || (c =? 60) || (c =? 62) || (c =? 124) || (c =? 13) || (c =? 10) || (c =? 9).

(** [re.sub("[cls]+", rep, s)]: every maximal run of characters of the class
    becomes one [rep]; [in_run] tells whether the previous character was of
    the class. *)
Fixpoint sub_runs_from (cls : Z -> bool) (rep : Z) (in_run : bool) (s : pystr) : pystr :=
  match s with
  | [] => []
  | c :: s' =>
      if cls c then
        if in_run then sub_runs_from cls rep true s'
        else rep :: sub_runs_from cls rep true s'
      else c :: sub_runs_from cls rep false s'
  end.
Definition sub_runs (cls : Z -> bool) (rep : Z) (s : pystr) : pystr :=
  sub_runs_from cls rep false s.

(** The literal ["arquivo"]. *)
Definition placeholder : pystr := py "arquivo".

(** [sanitize_filename(name)]. *)
Definition sanitize_filename (name : pystr) : pystr :=
  let name1 := sub_runs unsafe_char 95 (strip name) in
  let name2 := strip (sub_runs isspace 32 name1) in
  let name3 := replace_char 32 95 name2 in
  str_or name3 placeholder.

(* ===================================================================== *)
(** * JSON values and exceptions *)
(* ===================================================================== *)

(** What [r.json()] returns. *)
#[warnings="-register-all"]
Inductive json : Type :=
  | JNull
  | JBool (b : bool)
  | JInt (n : Z)
  | JFloat (q : Q)
  | JStr (s : pystr)
  | JArr (items : list json)
  | JObj (fields : list (pystr * json)).

(** Truth value of a decoded JSON value ([not data.get(...)]). *)
Definition json_truthy (j : json) : bool :=
  match j with
  | JNull => false
  | JBool b => b
  | JInt n => negb (n =? 0)
  | JFloat q => negb (Qeq_bool q 0)
  | JStr s => truthy s
  | JArr items => match items with [] => false | _ => true end
  | JObj fields => match fields with [] => false | _ => true end
  end.

Fixpoint assoc (k : pystr) (fields : list (pystr * json)) : option json :=
  match fields with
  | [] => None
  | (k', v) :: rest => if str_eqb k k' then Some v else assoc k rest
  end.

Inductive exn : Type :=
  | HTTPStatusError (status : Z)        (* httpx: [raise_for_status] *)
  | TransportError (detail : pystr)     (* httpx: connection, DNS, TLS, timeout *)
  | DecodingError                       (* [r.json()] on a body that is not JSON *)
  | OSError (detail : pystr)            (* file system failures *)
  | ValueError
  | KeyError (key : pystr)
  | AttributeError
  | AssertionError
  | RuntimeError (action : pystr) (data : json)
      (* the message: CKAN, the action, falhou, the decoded envelope *)
  | KeyboardInterrupt.

(** [isinstance(e, Exception)]: what [except Exception] catches. *)
Definition is_Exception (e : exn) : bool :=
  match e with KeyboardInterrupt => false | _ => true end.

(** Outcome of a call that may raise. *)
Inductive result (A : Type) : Type :=
  | Ok (a : A)
  | Raise (e : exn).
Arguments Ok {A} a.
Arguments Raise {A} e.

(* ===================================================================== *)
(** * Resource records and filters *)
(* ===================================================================== *)

(** A CKAN resource as the program reads it: the six fields it consumes,
    each a string, or [None] when the key is absent or null. *)
Record Resource : Type := {
  r_id : option pystr;
  r_name : option pystr;
  r_description : option pystr;
  r_format : option pystr;
  r_url : option pystr;
  r_download_url : option pystr
}.

(** [a or b] where [a] is the result of a [dict.get]. *)
Definition opt_or (a b : option pystr) : option pystr :=
  match a with
  | Some (_ :: _) => a
  | _ => b
  end.

(** [a or "literal"]. *)
Definition field_or (a : option pystr) (d : pystr) : pystr :=
  match opt_or a (Some d) with Some s => s | None => d end.

(** [is_xlsx_resource(res)]. *)
Definition is_xlsx_resource (res : Resource) : bool :=
  let fmt := lower (strip (field_or (r_format res) [])) in
  let url := lower (strip (field_or (opt_or (r_url res) (r_download_url res)) [])) in
  str_eqb fmt (py "xlsx") || endswith url (py ".xlsx").

(** [res_pretty_name(res)]. *)
Definition res_pretty_name (res : Resource) : pystr :=
  field_or (opt_or (r_name res) (opt_or (r_description res) (r_id res))) placeholder.

(** [res_url(res)]. *)
Definition res_url (res : Resource) : pystr :=
  field_or (opt_or (r_url res) (r_download_url res)) [].

(* ===================================================================== *)
(** * The Content-Disposition pattern *)
(* ===================================================================== *)

Module ContentDisposition.

(** One character of the input against one lower-case literal of a pattern
    compiled with [re.IGNORECASE]: besides the two ASCII cases, [re] lets
    U+0130 and U+0131 match the letter i. *)
Definition ci_match (p c : Z) : bool :=
  (lower_char c =? p) || ((p =? 105) && ((c =? 304) || (c =? 305))).

Fixpoint strip_prefix_ci (p s : pystr) : option pystr :=
  match p, s with
  | [], _ => Some s
  | x :: p', y :: s' => if ci_match x y then strip_prefix_ci p' s' else None
  | _ :: _, [] => None
  end.

(** The class of the group: any character but the double quote and the
    semicolon. *)
Definition token_char (c : Z) : bool := negb ((c =? 34) || (c =? 59)).

Fixpoint take_while (f : Z -> bool) (s : pystr) : pystr :=
  match s with
  | c :: s' => if f c then c :: take_while f s' else []
  | [] => []
  end.

(** The capturing group: greedy, at least one character of the class.  The
    optional closing quote after it always matches. *)
Definition cd_group (r : pystr) : option pystr :=
  match take_while token_char r with
  | [] => None
  | g => Some g
  end.

(** The optional opening quote, taken when present; giving it back cannot
    help, the group does not start with a quote. *)
Definition cd_quoted (r : pystr) : option pystr :=
  match r with
  | 34 :: r' => cd_group r'
  | _ => cd_group r
  end.

(** The optional charset tag [UTF-8''], taken when present and given back
    when nothing matches after it. *)
Definition cd_value (r : pystr) : option pystr :=
  match strip_prefix_ci (py "utf-8''") r with
  | Some r' =>
      match cd_quoted r' with
      | Some g => Some g
      | None => cd_quoted r
      end
  | None => cd_quoted r
  end.

(** The pattern anchored at the head of [s]: [filename], an optional
    asterisk, the equals sign, the value. *)
Definition cd_match_here (s : pystr) : option pystr :=
  match strip_prefix_ci (py "filename") s with
  | Some r1 =>
      let r2 := match r1 with 42 :: r => r | _ => r1 end in
      match r2 with
      | 61 :: r3 => cd_value r3
      | _ => None
      end
  | None => None
  end.

(** [_cd_fname_re.search(cd)]: [group(1)] of the leftmost match. *)
Fixpoint cd_search (s : pystr) : option pystr :=
  match cd_match_here s with
  | Some g => Some g
  | None =>
      match s with
      | [] => None
      | _ :: s' => cd_search s'
      end
  end.

End ContentDisposition.
Import ContentDisposition.

(* ===================================================================== *)
(** * [pathlib] paths and the file system *)
(* ===================================================================== *)

Module Pathlib.

(** A POSIX [pathlib.Path]: whether it is anchored at the root, and its
    components.  Parsing drops empty components and single dots, and keeps
    double dots. *)
Abbreviation path := (bool * list (list Z))%type.

(** [s.split(sep)]; [cur] is the piece being read, reversed. *)
Fixpoint split_from (sep : Z) (cur : pystr) (s : pystr) : list pystr :=
  match s with
  | [] => [rev cur]
  | c :: s' =>
      if c =? sep then rev cur :: split_from sep [] s'
      else split_from sep (c :: cur) s'
  end.
Definition split_on (sep : Z) (s : pystr) : list pystr := split_from sep [] s.

Definition is_dot (x : pystr) : bool := str_eqb x [46].
Definition is_dotdot (x : pystr) : bool := str_eqb x [46; 46].

(** [pathlib.Path(s)]. *)
Definition path_parse (s : pystr) : path :=
  (startswith s [47],
   List.filter (fun x => truthy x && negb (is_dot x)) (split_on 47 s)).

(** [p / s]: an absolute right operand replaces the left one. *)
Definition joinpath (p : path) (s : pystr) : path :=
  let q := path_parse s in
  if fst q then q else (fst p, snd p ++ snd q).

(** [p.name]. *)
Definition name (p : path) : pystr := List.last (snd p) [].

(** [s.rfind(c)] as an index from the left; [i] is the index of the head. *)
Fixpoint rfind_from (c : Z) (i : nat) (found : option nat) (s : pystr) : option nat :=
  match s with
  | [] => found
  | x :: s' => rfind_from c (S i) (if x =? c then Some i else found) s'
  end.

(** [p.suffix]: from the last dot of the name on, unless that dot is the
    first or the last character of the name. *)
Definition suffix (p : path) : pystr :=
  let n := name p in
  match rfind_from 46 0 None n with
  | Some i =>
      if (0 <? i)%nat && (i <? length n - 1)%nat then drop i n else []
  | None => []
  end.

(** [p.with_suffix(suf)]; [None] stands for the [ValueError] raised on an
    invalid suffix or on a path with an empty name. *)
Definition with_suffix (p : path) (suf : pystr) : option path :=
  if contains suf 47 then None
  else if (truthy suf && negb (startswith suf [46])) || is_dot suf then None
  else
    let n := name p in
    if negb (truthy n) then None
    else
      let old := suffix p in
      let stem := if truthy old then take (length n - length old) n else n in
      Some (fst p, removelast (snd p) ++ [stem ++ suf]).

(** [p.parent]. *)
Definition parent (p : path) : path := (fst p, removelast (snd p)).

End Pathlib.
Import Pathlib.

(** ** The file system *)

Module FileSystem.

Inductive node : Type :=
  | File (content : list Z)
  | Dir.

(** The tree below the root and the working directory, keyed by normalized
    path; both tops are directories that always exist.  There are no
    symbolic links. *)
Abbreviation filesystem := (gmap (bool * list (list Z)) node).

(** What the operating system makes of the double dots of a path: each one
    cancels the component before it; above the root there is the root. *)
Fixpoint normalize_from (anchored : bool) (acc : list pystr) (parts : list pystr)
  : list pystr :=
  match parts with
  | [] => rev acc
  | x :: rest =>
      if is_dotdot x then
        match acc with
        | [] => normalize_from anchored (if anchored then [] else [x]) rest
        | a :: acc' =>
            if is_dotdot a then normalize_from anchored (x :: acc) rest
            else normalize_from anchored acc' rest
        end
      else normalize_from anchored (x :: acc) rest
  end.

Definition key (p : path) : path := (fst p, normalize_from (fst p) [] (snd p)).

(** [os.path.isdir]. *)
Definition is_dir (fs : filesystem) (p : path) : bool :=
  let k := key p in
  match snd k with
  | [] => true
  | _ =>
      if is_dotdot (List.last (snd k) []) then true
      else match fs !! k with Some Dir => true | _ => false end
  end.

(** [os.makedirs]-like creation of the components of a normalized path from
    the top down: existing directories are kept, a missing one is created, a
    component that is a file is an error. *)
Fixpoint mkdir_from (fs : filesystem) (anchored : bool) (pre rest : list pystr)
  : option filesystem :=
  match rest with
  | [] => Some fs
  | c :: rest' =>
      let q := (anchored, pre ++ [c]) in
      if is_dotdot c then mkdir_from fs anchored (pre ++ [c]) rest'
      else
        match fs !! q with
        | Some Dir => mkdir_from fs anchored (pre ++ [c]) rest'
        | Some (File _) => None
        | None => mkdir_from (<[q := Dir]> fs) anchored (pre ++ [c]) rest'
        end
  end.

(** [p.mkdir(parents=True, exist_ok=True)]. *)
Definition mkdir_p (fs : filesystem) (p : path) : option filesystem :=
  mkdir_from fs (fst p) [] (snd (key p)).

(** [open(p, "wb")]: creates or truncates the file. *)
Definition open_wb (fs : filesystem) (p : path) : option filesystem :=
  if is_dir fs p then None
  else if is_dir fs (parent (key p)) then Some (<[key p := File []]> fs)
  else None.

(** [f.write(data)] on a file opened by [open_wb]. *)
Definition append (fs : filesystem) (p : path) (data : list Z) : filesystem :=
  match fs !! key p with
  | Some (File c) => <[key p := File (c ++ data)]> fs
  | _ => fs
  end.

(** [src.replace(dst)], that is [os.replace]: renames a file over whatever
    file [dst] names; a directory cannot be replaced by a file. *)
Definition replace (fs : filesystem) (src dst : path) : option filesystem :=
  match fs !! key src with
  | Some (File c) =>
      if is_dir fs dst then None
      else if is_dir fs (parent (key dst)) then
        Some (<[key dst := File c]> (delete (key src) fs))
      else None
  | _ => None
  end.

End FileSystem.
Import FileSystem.

(* ===================================================================== *)
(** * The outside world *)
(* ===================================================================== *)

(** A GET request. *)
Record Request : Type := {
  req_url : pystr;
  req_params : list (pystr * json)
}.

(** What the program reads of an [httpx.Response]. *)
Record Response : Type := {
  status : Z;
  content_disposition : option pystr; (* the header, when present *)
  content_length : option pystr;      (* the header, when present *)
  final_url : option pystr;           (* [str(resp.url)], [None] when [resp.url] is falsy *)
  body_json : option json;            (* [r.json()], [None] when the body is not JSON *)
  body_chunks : list (list Z);        (* what [iter_bytes] yields *)
  body_abort : option exn             (* raised by the stream after these chunks *)
}.

Inductive http_outcome : Type :=
  | NetFail (e : exn)
  | NetResp (r : Response).

(** Lines written to standard output. *)
Inductive message : Type :=
  | MsgProgress (filename : pystr) (downloaded total : Z)
  | MsgNewline
  | MsgSaved (out_path : path) (downloaded : Z)
  | MsgAttemptFailed (attempt retry : Z) (url : pystr) (e : exn)
  | MsgQuerying (dataset : pystr)
  | MsgNoXlsx (formats : list pystr)
  | MsgXlsxHeader (dataset : pystr)
  | MsgXlsxItem (name : pystr)
  | MsgXlsxUrl (url : pystr)
  | MsgFoundXlsx (count : nat) (out_dir : path)
  | MsgNoUrl (index : nat) (id : option pystr)
  | MsgResource (index count : nat) (name : pystr)
  | MsgUrl (url : pystr)
  | MsgFailed (e : exn)
  | MsgDone
  | MsgNoDatasets
  | MsgDataset (index count : nat) (title name : option pystr)
  | MsgFetchFailed (e : exn)
  | MsgNoResources
  | MsgGroupResource (name format url : pystr)
  | MsgCsvExported (csv_out : pystr)
  | MsgNothingToExport
  | MsgInterrupted
  | MsgHttpError (e : exn)
  | MsgError (e : exn).

(** Observable actions, in the order they happen. *)
Inductive event : Type :=
  | EvPrint (m : message)
  | EvSleep (seconds : Q)
  | EvGet (r : Request)
  | EvMkdir (p : path).

(** The state of the world: the file system and the network, which answers
    the [n]-th request of the run as it pleases. *)
Record World : Type := {
  fs : filesystem;
  net : nat -> Request -> http_outcome;
  nreq : nat
}.

Definition set_fs (f : filesystem) (w : World) : World :=
  {| fs := f; net := net w; nreq := nreq w |}.

(** ** Computations that act on the world and may raise *)

(** A run: how the call ends, the world it leaves and the observable actions
    it performed, in order. *)
Record Run (A : Type) : Type := {
  outcome : result A;
  world : World;
  emitted : list event
}.
Arguments outcome {A} r.
Arguments world {A} r.
Arguments emitted {A} r.

Definition M (A : Type) : Type := World -> Run A.

Definition ret {A : Type} (a : A) : M A :=
  fun w => {| outcome := Ok a; world := w; emitted := [] |}.

Definition raise {A : Type} (e : exn) : M A :=
  fun w => {| outcome := Raise e; world := w; emitted := [] |}.

Definition bind {A B : Type} (m : M A) (k : A -> M B) : M B :=
  fun w =>
    let r := m w in
    match outcome r with
    | Ok a =>
        let r' := k a (world r) in
        {| outcome := outcome r'; world := world r';
           emitted := emitted r ++ emitted r' |}
    | Raise e =>
        {| outcome := Raise e; world := world r; emitted := emitted r |}
    end.

Notation "'let*' x ':=' m 'in' k" := (bind m (fun x => k))
  (at level 10, x pattern, m at level 100, k at level 200).

(** [try: m  except Exception as e: handler e]. *)
Definition try_except {A : Type} (m : M A) (handler : exn -> M A) : M A :=
  fun w =>
    let r := m w in
    match outcome r with
    | Ok a => r
    | Raise e =>
        if is_Exception e then
          let r' := handler e (world r) in
          {| outcome := outcome r'; world := world r';
             emitted := emitted r ++ emitted r' |}
        else r
    end.

Definition emit (e : event) : M unit :=
  fun w => {| outcome := Ok tt; world := w; emitted := [e] |}.

(** [print(...)] and [sys.stdout.write(...)]. *)
Definition print (m : message) : M unit := emit (EvPrint m).

(** [time.sleep(seconds)]. *)
Definition sleep (seconds : Q) : M unit := emit (EvSleep seconds).

(** Sends a request: the network's answer to the next request of the run. *)
Definition http_get (r : Request) : M Response :=
  fun w =>
    let w' := {| fs := fs w; net := net w; nreq := S (nreq w) |} in
    {| outcome := match net w (nreq w) r with
                  | NetFail e => Raise e
                  | NetResp resp => Ok resp
                  end;
       world := w';
       emitted := [EvGet r] |}.

(** [r.raise_for_status()]: httpx raises unless the status is 2xx. *)
Definition is_success (code : Z) : bool := (200 <=? code) && (code <=? 299).

Definition raise_for_status (r : Response) : M unit :=
  if is_success (status r) then ret tt else raise (HTTPStatusError (status r)).

(** File-system calls; a refusal of the operating system is an [OSError]. *)
Definition fs_call (what : pystr) (f : filesystem -> option filesystem) : M unit :=
  fun w =>
    match f (fs w) with
    | Some fs' => {| outcome := Ok tt; world := set_fs fs' w; emitted := [] |}
    | None => {| outcome := Raise (OSError what); world := w; emitted := [] |}
    end.

Definition mkdir (p : path) : M unit :=
  let* _ := emit (EvMkdir p) in fs_call (py "mkdir") (fun f => mkdir_p f p).

Definition fopen (p : path) : M unit :=
  fs_call (py "open") (fun f => open_wb f p).

Definition fwrite (p : path) (data : list Z) : M unit :=
  fun w => {| outcome := Ok tt; world := set_fs (append (fs w) p data) w;
              emitted := [] |}.

Definition rename (src dst : path) : M unit :=
  fs_call (py "replace") (fun f => replace f src dst).

(* ===================================================================== *)
(** * The CKAN client *)
(* ===================================================================== *)

(** [data.get(key)]; only a [dict] has the method. *)
Definition dict_get (data : json) (k : pystr) : M (option json) :=
  match data with
  | JObj fields => ret (assoc k fields)
  | _ => raise AttributeError
  end.

(** Truth value of what [dict.get] returns. *)
Definition get_truthy (v : option json) : bool :=
  match v with Some j => json_truthy j | None => false end.

(** [data[key]]. *)
Definition dict_item (data : json) (k : pystr) : M json :=
  match data with
  | JObj fields =>
      match assoc k fields with
      | Some v => ret v
      | None => raise (KeyError k)
      end
  | _ => raise AttributeError
  end.

(** [ckan_call(base, action, params)]. *)
Definition ckan_call (base action : pystr) (params : list (pystr * json)) : M json :=
  let url := base ++ py "/api/3/action/" ++ action in
  let* r := http_get {| req_url := url; req_params := params |} in
  let* _ := raise_for_status r in
  let* data := match body_json r with
               | Some d => ret d
               | None => raise DecodingError
               end in
  let* success := dict_get data (py "success") in
  if negb (get_truthy success) then raise (RuntimeError action data)
  else dict_item data (py "result").

(** [ckan_package_show(base, dataset_id_or_slug)]. *)
Definition ckan_package_show (base : pystr) (dataset : option pystr) : M json :=
  ckan_call base (py "package_show")
    [(py "id", match dataset with Some d => JStr d | None => JNull end)].

(** [ckan_group_show(base, group_id_or_name, include_datasets)]. *)
Definition ckan_group_show (base group : pystr) (include_datasets : bool) : M json :=
  ckan_call base (py "group_show")
    [(py "id", JStr group); (py "include_datasets", JBool include_datasets)].

(** ** The payload as the orchestrators read it

    The values of the fields the program consumes are strings (or null, or
    missing), and [resources], [packages] and [datasets] are arrays of
    objects, as CKAN sends them. *)

Definition get_str (j : json) (k : pystr) : option pystr :=
  match j with
  | JObj fields =>
      match assoc k fields with
      | Some (JStr s) => Some s
      | _ => None
      end
  | _ => None
  end.

Definition resource_of_json (j : json) : Resource :=
  {| r_id := get_str j (py "id");
     r_name := get_str j (py "name");
     r_description := get_str j (py "description");
     r_format := get_str j (py "format");
     r_url := get_str j (py "url");
     r_download_url := get_str j (py "download_url") |}.

Definition get_array (j : json) (k : pystr) : list json :=
  match j with
  | JObj fields =>
      match assoc k fields with
      | Some (JArr items) => items
      | _ => []
      end
  | _ => []
  end.

(** [result.get("resources", [])]. *)
Definition get_resources (result : json) : list Resource :=
  List.map resource_of_json (get_array result (py "resources")).

(** A dataset summary of a group listing. *)
Record Package : Type := {
  pkg_title : option pystr;
  pkg_name : option pystr;
  pkg_id : option pystr
}.

Definition package_of_json (j : json) : Package :=
  {| pkg_title := get_str j (py "title");
     pkg_name := get_str j (py "name");
     pkg_id := get_str j (py "id") |}.

(** [res.get("packages") or res.get("datasets") or []]. *)
Definition get_packages (res : json) : list Package :=
  match get_array res (py "packages") with
  | [] => List.map package_of_json (get_array res (py "datasets"))
  | items => List.map package_of_json items
  end.

(* ===================================================================== *)
(** * The program *)
(* ===================================================================== *)

Section Program.

(** [httpx.URL(text).path]: the decoded path of a URL, [None] when the
    constructor rejects the text.  URL parsing belongs to httpx. *)
Variable httpx_url_path : pystr -> option pystr.

(** The literal ["arquivo.xlsx"]. *)
Definition default_filename : pystr := py "arquivo.xlsx".

(** Step 2 of [guess_filename]: the name of the final URL's path; [None]
    when the [try] block falls through or raises. *)
Definition url_filename (resp : Response) (fallback_url : pystr) : option pystr :=
  let text := match final_url resp with Some u => u | None => fallback_url end in
  match httpx_url_path text with
  | Some path =>
      if truthy path then
        let fn := name (path_parse path) in
        if truthy fn then Some (sanitize_filename (pct_decode fn)) else None
      else None
  | None => None
  end.

(** Step 3 of [guess_filename]. *)
Definition hint_filename (name_hint : option pystr) : pystr :=
  match opt_or name_hint None with
  | Some hint =>
      let fn := sanitize_filename hint in
      if endswith (lower fn) (py ".xlsx") then fn else fn ++ py ".xlsx"
  | None => default_filename
  end.

(** [guess_filename(resp, fallback_url, name_hint)]. *)
Definition guess_filename (resp : Response) (fallback_url : pystr)
    (name_hint : option pystr) : pystr :=
  let cd := match content_disposition resp with Some v => v | None => [] end in
  match cd_search cd with
  | Some token => sanitize_filename (pct_decode token)
  | None =>
      match url_filename resp fallback_url with
      | Some fn => fn
      | None => hint_filename name_hint
      end
  end.

(** [int(r.headers.get("content-length") or 0)]. *)
Definition parse_total (header : option pystr) : M Z :=
  match opt_or header None with
  | Some text =>
      match py_int 10 text with
      | Some n => ret n
      | None => raise ValueError
      end
  | None => ret 0
  end.

(** The [for chunk in r.iter_bytes(...)] loop: returns the byte count. *)
Fixpoint write_chunks (tmp_path : path) (filename : pystr) (total downloaded : Z)
    (chunks : list (list Z)) : M Z :=
  match chunks with
  | [] => ret downloaded
  | chunk :: rest =>
      let* _ := fwrite tmp_path chunk in
      let downloaded' := downloaded + Z.of_nat (length chunk) in
      let* _ := (if negb (total =? 0)
                 then print (MsgProgress filename downloaded' total)
                 else ret tt) in
      write_chunks tmp_path filename total downloaded' rest
  end.

(** [download_stream(url, dest_dir, name_hint, timeout_s)]. *)
Definition download_stream (url : pystr) (dest_dir : path)
    (name_hint : option pystr) (timeout_s : Q) : M path :=
  let* _ := mkdir dest_dir in
  let* r := http_get {| req_url := url; req_params := [] |} in
  let* _ := raise_for_status r in
  let filename := guess_filename r url name_hint in
  let out_path := joinpath dest_dir filename in
  let* tmp_path :=
    match with_suffix out_path (suffix out_path ++ py ".part") with
    | Some p => ret p
    | None => raise ValueError
    end in
  let* total := parse_total (content_length r) in
  let* _ := fopen tmp_path in
  let* downloaded := write_chunks tmp_path filename total 0 (body_chunks r) in
  let* _ := match body_abort r with Some e => raise e | None => ret tt end in
  let* _ := rename tmp_path out_path in
  let* _ := (if negb (total =? 0) then print MsgNewline else ret tt) in
  let* _ := print (MsgSaved out_path downloaded) in
  ret out_path.

(** [range(lo, hi)]. *)
Definition py_range (lo hi : Z) : list Z :=
  List.map (fun i => lo + Z.of_nat i) (seq 0 (Z.to_nat (hi - lo))).

(** The [for attempt in range(1, retry + 1)] loop of [download_with_retry]:
    [inl p] when an attempt returned [p], [inr last_err] when the loop ran to
    its end. *)
Fixpoint attempt_loop (url : pystr) (dest_dir : path) (name_hint : option pystr)
    (retry : Z) (sleep_between timeout_s : Q)
    (attempts : list Z) (last_err : option exn) : M (path + option exn) :=
  match attempts with
  | [] => ret (inr last_err)
  | attempt :: rest =>
      let* r :=
        try_except
          (let* p := download_stream url dest_dir name_hint timeout_s in
           ret (inl p))
          (fun e =>
             let* _ := print (MsgAttemptFailed attempt retry url e) in
             let* _ := (if attempt <? retry then sleep sleep_between else ret tt) in
             ret (inr e)) in
      match r with
      | inl p => ret (inl p)
      | inr e =>
          attempt_loop url dest_dir name_hint retry sleep_between timeout_s
            rest (Some e)
      end
  end.

(** [download_with_retry(url, dest_dir, name_hint, retry, sleep_between,
    timeout_s)]: the loop, then [assert last_err is not None] and
    [raise last_err]. *)
Definition download_with_retry (url : pystr) (dest_dir : path)
    (name_hint : option pystr) (retry : Z) (sleep_between timeout_s : Q)
    : M path :=
  let* r := attempt_loop url dest_dir name_hint retry sleep_between timeout_s
              (py_range 1 (retry + 1)) None in
  match r with
  | inl p => ret p
  | inr None => raise AssertionError
  | inr (Some e) => raise e
  end.

(** The module-level default [TIMEOUT_S], read from the environment. *)
Variable TIMEOUT_S : Q.

(** [pathlib.Path(text).resolve()]: the double dots are resolved; the
    working directory is the top of the relative tree. *)
Definition resolve (p : path) : path := key p.

(** [sorted(set((r.get("format") or "").upper() for r in resources))]. *)
Definition formats_present (resources : list Resource) : list pystr :=
  sorted_set (List.map (fun r => upper (field_or (r_format r) [])) resources).

(** The listing loop of [action_list_dataset_xlsx]. *)
Fixpoint print_xlsx (xlsx : list Resource) : M unit :=
  match xlsx with
  | [] => ret tt
  | r :: rest =>
      let* _ := print (MsgXlsxItem (res_pretty_name r)) in
      let* _ := print (MsgXlsxUrl (res_url r)) in
      print_xlsx rest
  end.

(** [action_list_dataset_xlsx(args)]. *)
Definition action_list_dataset_xlsx (args_base args_dataset : pystr) : M Z :=
  let base := rstrip_char 47 args_base in
  let dataset := args_dataset in
  let* result := ckan_package_show base (Some dataset) in
  let resources := get_resources result in
  let xlsx := List.filter is_xlsx_resource resources in
  match xlsx with
  | [] =>
      let* _ := print (MsgNoXlsx (formats_present resources)) in
      ret 0
  | _ :: _ =>
      let* _ := print (MsgXlsxHeader dataset) in
      let* _ := print_xlsx xlsx in
      ret 0
  end.

(** The [for i, r in enumerate(xlsx, 1)] loop of
    [action_download_dataset_xlsx]; [count] is [len(xlsx)]. *)
Fixpoint download_each (out_dir : path) (retry : Z) (sleep_between : Q)
    (count i : nat) (xlsx : list Resource) : M unit :=
  match xlsx with
  | [] => ret tt
  | r :: rest =>
      let url := res_url r in
      let name := str_or (res_pretty_name r)
                    (py "arquivo_" ++ str_of_nat i ++ py ".xlsx") in
      let* _ :=
        (if negb (truthy url) then print (MsgNoUrl i (r_id r))
         else
           let* _ := print (MsgResource i count name) in
           let* _ := print (MsgUrl url) in
           try_except
             (let* _ := download_with_retry url out_dir (Some name) retry
                          sleep_between TIMEOUT_S in
              ret tt)
             (fun e => print (MsgFailed e))) in
      download_each out_dir retry sleep_between count (S i) rest
  end.

(** [action_download_dataset_xlsx(args)]. *)
Definition action_download_dataset_xlsx (args_base args_dataset args_out : pystr)
    (args_retry : Z) (args_sleep : Q) : M Z :=
  let base := rstrip_char 47 args_base in
  let dataset := args_dataset in
  let out_dir := resolve (path_parse args_out) in
  let* _ := print (MsgQuerying dataset) in
  let* result := ckan_package_show base (Some dataset) in
  let resources := get_resources result in
  let xlsx := List.filter is_xlsx_resource resources in
  match xlsx with
  | [] =>
      let* _ := print (MsgNoXlsx (formats_present resources)) in
      ret 0
  | _ :: _ =>
      let* _ := mkdir out_dir in
      let* _ := print (MsgFoundXlsx (length xlsx) out_dir) in
      let* _ := download_each out_dir args_retry args_sleep (length xlsx) 1 xlsx in
      let* _ := print MsgDone in
      ret 0
  end.

(** ** Group listing and CSV export *)

(** A row of the export. *)
Record Row : Type := {
  dataset_title : option pystr;
  dataset_name : option pystr;
  dataset_id : option pystr;
  resource_name : pystr;
  resource_format : pystr;
  resource_url : pystr;
  resource_id : option pystr
}.

(** The condition under which the resource loop of [action_list_group] does
    not skip a resource: [fmt] is the stripped format, [url] the URL as
    [res_url] gives it. *)
Definition passes_filter (fmt_filter : pystr) (r : Resource) : bool :=
  let fmt := strip (field_or (r_format r) []) in
  let url := res_url r in
  negb (truthy fmt_filter
        && negb (str_eqb (lower fmt) fmt_filter)
        && negb (endswith (lower url) (46 :: fmt_filter))).

Definition make_row (ds_title ds_name ds_id : option pystr) (r : Resource) : Row :=
  {| dataset_title := ds_title;
     dataset_name := ds_name;
     dataset_id := ds_id;
     resource_name := res_pretty_name r;
     resource_format := strip (field_or (r_format r) []);
     resource_url := res_url r;
     resource_id := r_id r |}.

(** The [for r in resources] loop. *)
Fixpoint list_resources (fmt_filter : pystr) (ds_title ds_name ds_id : option pystr)
    (resources : list Resource) (rows : list Row) : M (list Row) :=
  match resources with
  | [] => ret rows
  | r :: rest =>
      if negb (passes_filter fmt_filter r) then
        list_resources fmt_filter ds_title ds_name ds_id rest rows
      else
        let* _ := print (MsgGroupResource (res_pretty_name r)
                           (strip (field_or (r_format r) [])) (res_url r)) in
        list_resources fmt_filter ds_title ds_name ds_id rest
          (rows ++ [make_row ds_title ds_name ds_id r])
  end.

(** The [for i, pkg in enumerate(packages, start=1)] loop; [count] is
    [len(packages)]. *)
Fixpoint list_packages (base fmt_filter : pystr) (count i : nat)
    (packages : list Package) (rows : list Row) : M (list Row) :=
  match packages with
  | [] => ret rows
  | pkg :: rest =>
      let ds_title := opt_or (pkg_title pkg) (opt_or (pkg_name pkg) (pkg_id pkg)) in
      let ds_name := opt_or (pkg_name pkg) (pkg_id pkg) in
      let ds_id := pkg_id pkg in
      let* _ := print (MsgDataset i count ds_title ds_name) in
      let* fetched :=
        try_except
          (let* ds := ckan_package_show base (opt_or ds_id ds_name) in
           ret (Some (get_resources ds)))
          (fun e =>
             let* _ := print (MsgFetchFailed e) in
             ret None) in
      match fetched with
      | None => list_packages base fmt_filter count (S i) rest rows
      | Some [] =>
          let* _ := print MsgNoResources in
          list_packages base fmt_filter count (S i) rest rows
      | Some resources =>
          let* rows' := list_resources fmt_filter ds_title ds_name ds_id
                          resources rows in
          list_packages base fmt_filter count (S i) rest rows'
      end
  end.

(** One field as [csv.writer] writes it with the default dialect: quoted
    when it holds a comma, a double quote, CR or LF, the quotes doubled. *)
Definition csv_field (v : pystr) : pystr :=
  if existsb (fun c => (c =? 44) || (c =? 34) || (c =? 13) || (c =? 10)) v
  then 34 :: List.concat (List.map (fun c => if c =? 34 then [34; 34] else [c]) v)
       ++ [34]
  else v.

Fixpoint join_comma (fields : list pystr) : pystr :=
  match fields with
  | [] => []
  | [f] => f
  | f :: rest => f ++ 44 :: join_comma rest
  end.

(** A record of the file: the fields, then CR LF. *)
Definition csv_line (fields : list pystr) : pystr :=
  join_comma (List.map csv_field fields) ++ [13; 10].

Definition fieldnames : list pystr :=
  [py "dataset_title"; py "dataset_name"; py "dataset_id"; py "resource_name";
   py "resource_format"; py "resource_url"; py "resource_id"].

(** [None] is written as the empty string. *)
Definition cell (v : option pystr) : pystr :=
  match v with Some s => s | None => [] end.

Definition row_fields (row : Row) : list pystr :=
  [cell (dataset_title row); cell (dataset_name row); cell (dataset_id row);
   resource_name row; resource_format row; resource_url row;
   cell (resource_id row)].

(** [f.write(text)] on a file opened with [encoding="utf-8"]. *)
Definition fwrite_text (p : path) (text : pystr) : M unit :=
  match utf8_encode_strict text with
  | Some bytes => fwrite p bytes
  | None => raise ValueError
  end.

Fixpoint write_rows (p : path) (rows : list Row) : M unit :=
  match rows with
  | [] => ret tt
  | row :: rest =>
      let* _ := fwrite_text p (csv_line (row_fields row)) in
      write_rows p rest
  end.

(** The [with open(csv_out, "w", ...)] block. *)
Definition write_csv (csv_out : pystr) (rows : list Row) : M unit :=
  let p := path_parse csv_out in
  let* _ := fopen p in
  let* _ := fwrite_text p (csv_line fieldnames) in
  write_rows p rows.

(** [action_list_group(args)]. *)
Definition action_list_group (args_base args_group : pystr)
    (args_format args_csv : option pystr) : M Z :=
  let base := rstrip_char 47 args_base in
  let group := args_group in
  let fmt_filter := lower (strip (field_or args_format [])) in
  let csv_out := args_csv in
  let* res := ckan_group_show base group true in
  let packages := get_packages res in
  match packages with
  | [] =>
      let* _ := print MsgNoDatasets in
      ret 0
  | _ :: _ =>
      let* rows := list_packages base fmt_filter (length packages) 1 packages [] in
      let* _ :=
        match opt_or csv_out None, rows with
        | Some out, _ :: _ =>
            let* _ := write_csv out rows in
            print (MsgCsvExported out)
        | Some _, [] => print MsgNothingToExport
        | None, _ => ret tt
        end in
      ret 0
  end.

(** The [try] block of [main] around the selected action. *)
Definition main_run (action : M Z) : M Z :=
  fun w =>
    let r := action w in
    match outcome r with
    | Ok code => r
    | Raise e =>
        let '(code, msg) :=
          match e with
          | KeyboardInterrupt => (130, MsgInterrupted)
          | HTTPStatusError _ | TransportError _ => (2, MsgHttpError e)
          | _ => (1, MsgError e)
          end in
        {| outcome := Ok code; world := world r;
           emitted := emitted r ++ [EvPrint msg] |}
    end.

End Program.

(* ===================================================================== *)
(** * Notions of the specification *)
(* ===================================================================== *)

(** A hexadecimal digit. *)
Definition is_hex (c : Z) : bool :=
  ((48 <=? c) && (c <=? 57)) || ((65 <=? c) && (c <=? 70))
  || ((97 <=? c) && (c <=? 102)).

Definition hex_digits : list Z :=
  [48; 49; 50; 51; 52; 53; 54; 55; 56; 57; 65; 66; 67; 68; 69; 70;
   97; 98; 99; 100; 101; 102].

(** Percent-decoding as the specification words it: a percent sign followed
    by two hexadecimal digits becomes the byte they write; every other
    character, the percent sign of an invalid or incomplete sequence
    included, is passed through. *)
Fixpoint pct_loop_spec (s : pystr) : list Z :=
  match s with
  | [] => []
  | ch :: rest =>
      let keep := utf8_encode_char ch ++ pct_loop_spec rest in
      if ch =? 37 then
        match rest with
        | h1 :: h2 :: rest' =>
            if is_hex h1 && is_hex h2
            then (16 * digit_value h1 + digit_value h2) :: pct_loop_spec rest'
            else keep
        | _ => keep
        end
      else keep
  end.

Definition pct_decode_spec (s : pystr) : pystr :=
  utf8_decode_replace (pct_loop_spec s).







(** ** File-name resolution as the specification words it *)






(** A response with the header, a URL and nothing else of interest. *)
Definition response_with (header : option pystr) (url : option pystr) : Response :=
  {| status := 200; content_disposition := header; content_length := None;
     final_url := url; body_json := None; body_chunks := []; body_abort := None |}.

(** ** Worlds used as examples *)

(** A response to a CKAN action: a status and a JSON body. *)
Definition json_response (code : Z) (body : option json) : Response :=
  {| status := code; content_disposition := None; content_length := None;
     final_url := None; body_json := body; body_chunks := []; body_abort := None |}.

(** A world with an empty file system whose network always gives the same
    answer. *)
Definition world_answering (answer : http_outcome) : World :=
  {| fs := ∅; net := fun _ _ => answer; nreq := 0 |}.

(** The request of [ckan_call]. *)
Definition ckan_request (base action : pystr) (params : list (pystr * json)) : Request :=
  {| req_url := base ++ py "/api/3/action/" ++ action; req_params := params |}.

(** ** The retry wrapper: notions *)





(** The durations of the sleeps, in order. *)
Fixpoint sleeps (evs : list event) : list Q :=
  match evs with
  | [] => []
  | EvSleep s :: rest => s :: sleeps rest
  | _ :: rest => sleeps rest
  end.



(** What follows a failed attempt: the failure line, and the sleep unless
    the attempt was the last. *)
Definition after_failure (url : pystr) (retry : Z) (sleep_between : Q)
    (a : Z) (e : exn) : list event :=
  EvPrint (MsgAttemptFailed a retry url e)
  :: (if a <? retry then [EvSleep sleep_between] else []).

(** ** Worlds used as examples of downloads *)

(** A 200 answer carrying a three-byte file. *)
Definition file_response : Response :=
  {| status := 200; content_disposition := None; content_length := Some (py "3");
     final_url := Some (py "http://host/files/b.xlsx"); body_json := None;
     body_chunks := [[80; 75; 3]]; body_abort := None |}.

(** A URL parser that knows the one URL of the examples. *)
Definition example_url_path (text : pystr) : option pystr :=
  if str_eqb text (py "http://host/files/b.xlsx") then Some (py "/files/b.xlsx")
  else None.

(** A network that times out once and then answers, and one that refuses
    every connection. *)
Definition flaky_world : World :=
  {| fs := ∅;
     net := fun n _ =>
              match n with
              | O => NetFail (TransportError (py "timeout"))
              | _ => NetResp file_response
              end;
     nreq := 0 |}.

Definition dead_world : World :=
  {| fs := ∅; net := fun _ _ => NetFail (TransportError (py "refused")); nreq := 0 |}.

Definition out_dir_example : path := (true, [py "out"]).

(** ** Orchestrators: notions *)

(** A network that never interrupts the program: whatever it raises, at the
    connection or in the middle of a body, is an error that
    [except Exception] catches. *)
Definition calm (w : World) : Prop :=
  forall (n : nat) (r : Request),
    match net w n r with
    | NetFail e => is_Exception e = true
    | NetResp resp =>
        forall e, body_abort resp = Some e -> is_Exception e = true
    end.



(** The hint that the download loop passes for the [i]-th resource. *)
Definition download_name (r : Resource) (i : nat) : pystr :=
  str_or (res_pretty_name r) (py "arquivo_" ++ str_of_nat i ++ py ".xlsx").

(** A dataset with a CSV resource, an XLSX resource and an XLSX resource
    without URL, as [package_show] returns it. *)
Definition json_resource (format : pystr) (url : option pystr) (id : pystr) : json :=
  JObj ([(py "format", JStr format); (py "id", JStr id)]
        ++ match url with Some u => [(py "url", JStr u)] | None => [] end).

Definition dataset_example : json :=
  JObj [(py "resources",
         JArr [json_resource (py "CSV") (Some (py "http://host/files/a.csv")) (py "r1");
               json_resource (py "XLSX") (Some (py "http://host/files/b.xlsx")) (py "r2");
               json_resource (py "xlsx") None (py "r3")])].

Definition envelope (result : json) : json :=
  JObj [(py "success", JBool true); (py "result", result)].

(** A world where the dataset is served and every download is refused. *)
Definition refusing_world : World :=
  {| fs := ∅;
     net := fun n _ =>
              match n with
              | O => NetResp (json_response 200 (Some (envelope dataset_example)))
              | _ => NetFail (TransportError (py "refused"))
              end;
     nreq := 0 |}.


(** ** Group listing: notions *)

(** A computation that leaves the file system as it found it. *)
Definition keeps_fs {A : Type} (m : M A) : Prop :=
  forall w, fs (world (m w)) = fs w.



(** The filter as [action_list_group] derives it from its argument. *)
Definition normalized_filter (args_format : option pystr) : pystr :=
  lower (strip (field_or args_format [])).




(** A group with one dataset summary, and a world that serves the group and
    then, for every later request, the dataset of the examples. *)
Definition group_example : json :=
  JObj [(py "packages",
         JArr [JObj [(py "id", JStr (py "d1")); (py "name", JStr (py "teses"));
                     (py "title", JStr (py "Teses"))]])].

Definition group_world : World :=
  {| fs := ∅;
     net := fun n _ =>
              match n with
              | O => NetResp (json_response 200 (Some (envelope group_example)))
              | _ => NetResp (json_response 200 (Some (envelope dataset_example)))
              end;
     nreq := 0 |}.


(** The world after [n] more requests were sent and nothing else happened. *)
Definition after_requests (n : nat) (w : World) : World :=
  {| fs := fs w; net := net w; nreq := nreq w + n |}.

(** The line printed for a resource of the group listing. *)
Definition resource_line (r : Resource) : event :=
  EvPrint (MsgGroupResource (res_pretty_name r) (strip (field_or (r_format r) []))
             (res_url r)).

(** The CSV destination is requested when [args.csv] is a non-empty string. *)
Definition csv_requested (args_csv : option pystr) : bool :=
  match opt_or args_csv None with Some _ => true | None => false end.




Definition package_example : Package :=
  {| pkg_title := Some (py "Teses"); pkg_name := Some (py "teses");
     pkg_id := Some (py "d1") |}.


(** ** A single download: notions *)


(** A path without double dots, as [resolve] gives for an absolute path. *)
Definition resolved (p : path) : Prop :=
  Forall (fun x => is_dotdot x = false) (snd p).

(** The progress lines of the chunk loop: one per chunk when the length is
    known and not zero, none otherwise. *)
Fixpoint progress_events (filename : pystr) (total downloaded : Z)
    (chunks : list (list Z)) : list event :=
  match chunks with
  | [] => []
  | chunk :: rest =>
      let downloaded' := downloaded + Z.of_nat (length chunk) in
      (if negb (total =? 0) then [EvPrint (MsgProgress filename downloaded' total)]
       else [])
      ++ progress_events filename total downloaded' rest
  end.

(** The request of [download_stream]. *)
Definition download_request (url : pystr) : Request :=
  {| req_url := url; req_params := [] |}.

(** The world after one request, with the file system [f]. *)
Definition requested (f : filesystem) (w : World) : World :=
  {| fs := f; net := net w; nreq := S (nreq w) |}.

(** The value of [int(r.headers.get("content-length") or 0)], when there is
    one. *)
Definition total_of (header : option pystr) : option Z :=
  match opt_or header None with
  | Some text => py_int 10 text
  | None => Some 0
  end.



Definition dot_response : Response :=
  {| status := 200;
     content_disposition := Some (py "attachment; filename=.");
     content_length := None;
     final_url := Some (py "http://host/files/b.xlsx"); body_json := None;
     body_chunks := [[80; 75; 3]]; body_abort := None |}.

Definition unmeasured_response : Response :=
  {| status := 200; content_disposition := None;
     content_length := Some (py "3 bytes");
     final_url := Some (py "http://host/files/b.xlsx"); body_json := None;
     body_chunks := [[80; 75; 3]]; body_abort := None |}.


(** ** The actions and the exit code: notions *)


(** The exit code of the program for an error that reaches [main], and the
    line that reports it. *)
Definition exit_code (e : exn) : Z :=
  match e with
  | KeyboardInterrupt => 130
  | HTTPStatusError _ | TransportError _ => 2
  | _ => 1
  end.

Definition exit_line (e : exn) : message :=
  match e with
  | KeyboardInterrupt => MsgInterrupted
  | HTTPStatusError _ | TransportError _ => MsgHttpError e
  | _ => MsgError e
  end.


(** ** Percent-encoding, the inverse of [pct_decode] *)

(** A Unicode scalar value: a code point that is not a surrogate. *)
Definition scalar (c : Z) : Prop := 0 <= c < 55296 \/ 57344 <= c < 1114112.

(** The hexadecimal digit of a value below sixteen, in either case. *)
Definition hex_digit (lower_case : bool) (n : Z) : Z :=
  if n <? 10 then 48 + n else (if lower_case then 87 else 55) + n.

(** A byte as a percent sign and two hexadecimal digits. *)
Definition quote_byte (lower_case : bool) (b : Z) : pystr :=
  [37; hex_digit lower_case (b / 16); hex_digit lower_case (b mod 16)].

(** Percent-encoding of a string: an ASCII character other than the percent
    sign is kept when [keep] says so; any other character becomes the
    percent-encoded bytes of its UTF-8 encoding. *)
Definition quote_char (keep : Z -> bool) (lower_case : bool) (c : Z) : pystr :=
  if keep c && (c <? 128) && negb (c =? 37) then [c]
  else List.concat (List.map (quote_byte lower_case) (utf8_encode_char c)).

Definition quote (keep : Z -> bool) (lower_case : bool) (s : pystr) : pystr :=
  List.concat (List.map (quote_char keep lower_case) s).


(** ** The formats line: notions *)


(* ===================================================================== *)
(** * Properties *)
(* ===================================================================== *)


Lemma str_eqb_neq (a b : pystr) : str_eqb a b = false <-> a <> b.
Proof. unfold str_eqb. apply bool_decide_eq_false. Qed.

(** ** Percent-decoding *)

Lemma is_hex_digits (c : Z) : is_hex c = true -> In c hex_digits.
Proof.
  unfold is_hex, hex_digits. intros H. simpl.
  repeat (apply orb_prop in H; destruct H as [H | H]);
    apply andb_prop in H; destruct H as [H1 H2];
    apply Z.leb_le in H1; apply Z.leb_le in H2; lia.
Qed.

(** [int] reads two hexadecimal digits as the byte they write. *)
Lemma py_int_hex_pair (h1 h2 : Z) :
  is_hex h1 = true -> is_hex h2 = true ->
  py_int 16 [h1; h2] = Some (16 * digit_value h1 + digit_value h2)
  /\ 0 <= 16 * digit_value h1 + digit_value h2 < 256.
Proof.
  intros H1 H2. apply is_hex_digits in H1. apply is_hex_digits in H2.
  assert (K : forallb (fun a => forallb (fun b =>
              bool_decide (py_int 16 [a; b] = Some (16 * digit_value a + digit_value b))
              && (0 <=? 16 * digit_value a + digit_value b)
              && (16 * digit_value a + digit_value b <? 256)) hex_digits)
            hex_digits = true) by (vm_compute; reflexivity).
  rewrite forallb_forall in K. specialize (K h1 H1).
  rewrite forallb_forall in K. specialize (K h2 H2).
  apply andb_prop in K. destruct K as [K K3].
  apply andb_prop in K. destruct K as [K1 K2].
  apply bool_decide_eq_true in K1. apply Z.leb_le in K2. apply Z.ltb_lt in K3.
  split; [exact K1 | lia].
Qed.

(** A valid triplet is converted to its byte value by the loop. *)
Lemma pct_loop_valid_triplet (h1 h2 : Z) (rest : pystr) :
  is_hex h1 = true -> is_hex h2 = true ->
  pct_loop (37 :: h1 :: h2 :: rest)
  = (16 * digit_value h1 + digit_value h2) :: pct_loop rest.
Proof.
  intros H1 H2. destruct (py_int_hex_pair h1 h2 H1 H2) as [E [Lo Hi]].
  cbn [pct_loop]. rewrite Z.eqb_refl, E.
  replace (0 <=? _) with true by (symmetry; apply Z.leb_le; lia).
  replace (_ <? 256) with true by (symmetry; apply Z.ltb_lt; lia).
  reflexivity.
Qed.

(** The early return: a string without a percent sign is returned as it is. *)
Lemma pct_decode_no_percent (s : pystr) :
  contains s 37 = false -> pct_decode s = s.
Proof.
  intros H. unfold pct_decode. rewrite H. simpl. rewrite orb_true_r. reflexivity.
Qed.

Example pct_decode_space : pct_decode (py "a%20b") = py "a b".
Proof. vm_compute. reflexivity. Qed.

Example pct_decode_incomplete : pct_decode (py "100%") = py "100%".
Proof. vm_compute. reflexivity. Qed.

Example pct_decode_not_hex : pct_decode (py "%zz") = py "%zz".
Proof. vm_compute. reflexivity. Qed.

Example pct_decode_malformed_utf8 : pct_decode (py "%FF") = [replacement].
Proof. vm_compute. reflexivity. Qed.

(** C4: [pct_decode] does not pass every invalid sequence through.  In
    [50%+1.xlsx] the percent sign is followed by a plus sign and a digit, which
    is not a pair of hexadecimal digits, yet [int] accepts a sign: the three
    characters become the byte 1, where the percent-decoding of the
    specification keeps the text as it is. *)
Theorem pct_decode_accepts_signed_digit :
  py_int 16 (py "+1") = Some 1
  /\ pct_decode (py "50%+1.xlsx") = py "50" ++ [1] ++ py ".xlsx"
  /\ pct_decode_spec (py "50%+1.xlsx") = py "50%+1.xlsx"
  /\ pct_decode (py "50%+1.xlsx") <> py "50%+1.xlsx".
Proof. vm_compute. repeat split; try reflexivity. discriminate. Qed.

(** The same slip with a blank in place of the sign. *)
Example pct_decode_accepts_blank : pct_decode (py "5% 1") = [53; 1].
Proof. vm_compute. reflexivity. Qed.

(** ** Sanitization *)

Section Sanitize.

Variable P : Z -> Prop.

Lemma Forall_lstrip (s : pystr) : Forall P s -> Forall P (lstrip s).
Proof.
  induction 1 as [| c s' Hc Hs IH]; simpl; [constructor |].
  destruct (isspace c); [exact IH | constructor; assumption].
Qed.

Lemma Forall_strip (s : pystr) : Forall P s -> Forall P (strip s).
Proof.
  intros H. unfold strip, rstrip.
  apply List.Forall_rev, Forall_lstrip, List.Forall_rev, Forall_lstrip, H.
Qed.

(** What a substitution of runs leaves: the replacement and the characters
    of the input outside the class. *)
Lemma Forall_sub_runs_from (cls : Z -> bool) (rep : Z) (b : bool) (s : pystr) :
  P rep ->
  Forall (fun c => cls c = false -> P c) s ->
  Forall P (sub_runs_from cls rep b s).
Proof.
  intros Hrep H. revert b.
  induction H as [| c s' Hc Hs IH]; intros b; simpl; [constructor |].
  destruct (cls c) eqn:E.
  - destruct b; [apply IH | constructor; [exact Hrep | apply IH]].
  - constructor; [apply Hc; reflexivity | apply IH].
Qed.

End Sanitize.

Lemma sub_runs_outside (cls : Z -> bool) (rep : Z) (s : pystr) :
  Forall (fun c => c = rep \/ cls c = false) (sub_runs cls rep s).
Proof.
  apply Forall_sub_runs_from; [left; reflexivity |].
  apply List.Forall_forall. intros c _ Hc. right. exact Hc.
Qed.

Lemma sub_runs_keeps (P : Z -> Prop) (cls : Z -> bool) (rep : Z) (s : pystr) :
  P rep -> Forall P s -> Forall P (sub_runs cls rep s).
Proof.
  intros Hrep H. apply Forall_sub_runs_from; [exact Hrep |].
  eapply List.Forall_impl; [| exact H]. intros c Hc _. exact Hc.
Qed.



(** Every character of a sanitized name is outside the substituted class and
    is no white space. *)
Lemma sanitize_filename_chars (name : pystr) :
  Forall (fun c => unsafe_char c = false /\ isspace c = false)
    (sanitize_filename name).
Proof.
  unfold sanitize_filename, str_or.
  set (name1 := sub_runs unsafe_char 95 (strip name)).
  set (name2 := strip (sub_runs isspace 32 name1)).
  assert (H1 : Forall (fun c => unsafe_char c = false) name1).
  { eapply List.Forall_impl; [| apply sub_runs_outside].
    intros c [-> | Hc]; [reflexivity | exact Hc]. }
  assert (H2 : Forall (fun c => unsafe_char c = false
                                /\ (c = 32 \/ isspace c = false)) name2).
  { unfold name2. apply Forall_strip.
    apply List.Forall_and.
    - apply sub_runs_keeps; [reflexivity | exact H1].
    - apply sub_runs_outside. }
  destruct (truthy (replace_char 32 95 name2)) eqn:T.
  - unfold replace_char. apply List.Forall_map.
    eapply List.Forall_impl; [| exact H2].
    intros c [Hu Hs]. simpl. destruct (c =? 32) eqn:E.
    + split; reflexivity.
    + split; [exact Hu |]. destruct Hs as [-> | Hs]; [discriminate | exact Hs].
  - vm_compute. repeat constructor.
Qed.




(** ** The resource filter *)





(** ** File-name resolution *)

Lemma cd_search_nil : cd_search [] = None.
Proof. reflexivity. Qed.

Example cd_search_quoted :
  cd_search (py "attachment; filename=" ++ [34] ++ py "relatorio 2020.xlsx" ++ [34])
  = Some (py "relatorio 2020.xlsx").
Proof. vm_compute. reflexivity. Qed.

Example cd_search_extended :
  cd_search (py "attachment; filename*=UTF-8''tese%20final.xlsx")
  = Some (py "tese%20final.xlsx").
Proof. vm_compute. reflexivity. Qed.

Example cd_search_no_token : cd_search (py "inline") = None.
Proof. vm_compute. reflexivity. Qed.



Example guess_filename_from_url :
  guess_filename (fun _ => Some (py "/files/tese%20final.xlsx"))
    (response_with None (Some (py "http://host/files/tese%20final.xlsx")))
    (py "http://host/d") (Some (py "nome"))
  = py "tese_final.xlsx".
Proof. vm_compute. reflexivity. Qed.

Example guess_filename_from_hint :
  guess_filename (fun _ => Some (py "/")) (response_with None None)
    (py "http://host/") (Some (py "Teses 2020"))
  = py "Teses_2020.xlsx".
Proof. vm_compute. reflexivity. Qed.

Example guess_filename_default :
  guess_filename (fun _ => None) (response_with None None) (py "nonsense") None
  = py "arquivo.xlsx".
Proof. vm_compute. reflexivity. Qed.

(** ** The CKAN client *)



Example ckan_call_returns_result :
  outcome (ckan_call (py "http://host") (py "package_show") []
             (world_answering
                (NetResp (json_response 200
                   (Some (JObj [(py "success", JBool true);
                                (py "result", JStr (py "payload"))]))))))
  = Ok (JStr (py "payload")).
Proof. reflexivity. Qed.

Example ckan_call_http_error :
  outcome (ckan_call (py "http://host") (py "package_show") []
             (world_answering (NetResp (json_response 404 None))))
  = Raise (HTTPStatusError 404).
Proof. reflexivity. Qed.

(** Outside the claim: a 2xx body that is no JSON, a JSON body that is no
    object, and an envelope without [result]. *)
Example ckan_call_not_json :
  outcome (ckan_call (py "http://host") (py "package_show") []
             (world_answering (NetResp (json_response 200 None))))
  = Raise DecodingError.
Proof. reflexivity. Qed.

Example ckan_call_not_an_object :
  outcome (ckan_call (py "http://host") (py "package_show") []
             (world_answering (NetResp (json_response 200 (Some (JArr []))))))
  = Raise AttributeError.
Proof. reflexivity. Qed.

Example ckan_call_no_result :
  outcome (ckan_call (py "http://host") (py "package_show") []
             (world_answering
                (NetResp (json_response 200
                            (Some (JObj [(py "success", JBool true)]))))))
  = Raise (KeyError (py "result")).
Proof. reflexivity. Qed.

(** ** Runs and their events *)





(** The events of a sequence: those of the first part, then those of the
    second if the first returns. *)
Lemma emitted_bind {A B : Type} (m : M A) (k : A -> M B) (w : World) :
  emitted (bind m k w)
  = emitted (m w)
    ++ match outcome (m w) with
       | Ok a => emitted (k a (world (m w)))
       | Raise _ => []
       end.
Proof.
  unfold bind. destruct (outcome (m w)); cbn [emitted];
    [reflexivity | rewrite app_nil_r; reflexivity].
Qed.

Lemma outcome_bind {A B : Type} (m : M A) (k : A -> M B) (w : World) :
  outcome (bind m k w)
  = match outcome (m w) with
    | Ok a => outcome (k a (world (m w)))
    | Raise e => Raise e
    end.
Proof. unfold bind. destruct (outcome (m w)); reflexivity. Qed.

Lemma world_bind {A B : Type} (m : M A) (k : A -> M B) (w : World) :
  world (bind m k w)
  = match outcome (m w) with
    | Ok a => world (k a (world (m w)))
    | Raise _ => world (m w)
    end.
Proof. unfold bind. destruct (outcome (m w)); reflexivity. Qed.

Lemma bind_ok {A B : Type} (m : M A) (k : A -> M B) (w : World) (a : A) :
  outcome (m w) = Ok a ->
  bind m k w
  = {| outcome := outcome (k a (world (m w)));
       world := world (k a (world (m w)));
       emitted := emitted (m w) ++ emitted (k a (world (m w))) |}.
Proof. intros H. unfold bind. rewrite H. reflexivity. Qed.

Lemma bind_raise {A B : Type} (m : M A) (k : A -> M B) (w : World) (e : exn) :
  outcome (m w) = Raise e ->
  bind m k w
  = {| outcome := Raise e; world := world (m w); emitted := emitted (m w) |}.
Proof. intros H. unfold bind. rewrite H. reflexivity. Qed.


Section EmitsOnly.

Variable P : event -> Prop.







End EmitsOnly.



Section Downloader.

Variable url_path : pystr -> option pystr.
Variables (url : pystr) (dest_dir : path) (name_hint : option pystr).
Variable timeout_s : Q.



End Downloader.

(** ** The retry loop *)


Lemma try_except_uncaught {A : Type} (m : M A) (h : exn -> M A) (w : World)
    (e : exn) :
  outcome (m w) = Raise e -> is_Exception e = false -> try_except m h w = m w.
Proof. intros H C. unfold try_except. rewrite H, C. reflexivity. Qed.

Lemma try_except_caught {A : Type} (m : M A) (h : exn -> M A) (w : World)
    (e : exn) :
  outcome (m w) = Raise e -> is_Exception e = true ->
  try_except m h w
  = {| outcome := outcome (h e (world (m w)));
       world := world (h e (world (m w)));
       emitted := emitted (m w) ++ emitted (h e (world (m w))) |}.
Proof. intros H C. unfold try_except. rewrite H, C. reflexivity. Qed.

Section Retry.

Variable url_path : pystr -> option pystr.
Variables (url : pystr) (dest_dir : path) (name_hint : option pystr).
Variables (retry : Z) (sleep_between timeout_s : Q).

Abbreviation attempt := (download_stream url_path url dest_dir name_hint timeout_s).
Abbreviation loop := (attempt_loop url_path url dest_dir name_hint retry
                    sleep_between timeout_s).

(** One turn of the loop when the attempt returns. *)
Lemma loop_attempt_ok (a : Z) (rest : list Z) (last : option exn) (w : World)
    (p : path) :
  outcome (attempt w) = Ok p ->
  outcome (loop (a :: rest) last w) = Ok (inl p)
  /\ world (loop (a :: rest) last w) = world (attempt w)
  /\ emitted (loop (a :: rest) last w) = emitted (attempt w).
Proof.
  intros H. cbn [attempt_loop].
  unfold bind, try_except. cbn [outcome world emitted].
  unfold bind. rewrite H. cbn [outcome world emitted ret].
  rewrite !app_nil_r. repeat split.
Qed.

(** One turn of the loop when the attempt fails with an error that is
    caught. *)
Lemma loop_attempt_caught (a : Z) (rest : list Z) (last : option exn) (w : World)
    (e : exn) :
  outcome (attempt w) = Raise e ->
  is_Exception e = true ->
  outcome (loop (a :: rest) last w) = outcome (loop rest (Some e) (world (attempt w)))
  /\ world (loop (a :: rest) last w) = world (loop rest (Some e) (world (attempt w)))
  /\ emitted (loop (a :: rest) last w)
     = emitted (attempt w) ++ after_failure url retry sleep_between a e
       ++ emitted (loop rest (Some e) (world (attempt w))).
Proof.
  intros H C. cbn [attempt_loop].
  rewrite outcome_bind, world_bind, emitted_bind.
  assert (O : outcome ((let* p := attempt in ret (inl p : path + exn)) w) = Raise e)
    by (rewrite outcome_bind, H; reflexivity).
  assert (W : world ((let* p := attempt in ret (inl p : path + exn)) w)
              = world (attempt w))
    by (rewrite world_bind, H; reflexivity).
  assert (E : emitted ((let* p := attempt in ret (inl p : path + exn)) w)
              = emitted (attempt w))
    by (rewrite emitted_bind, H; apply app_nil_r).
  rewrite (try_except_caught _ _ w e O C). cbn [outcome world emitted].
  rewrite W, E. unfold after_failure.
  destruct (a <? retry);
    cbn [bind outcome world emitted print sleep emit ret app];
    rewrite <- ?app_assoc; repeat split.
Qed.

(** One turn of the loop when the attempt is interrupted. *)
Lemma loop_attempt_uncaught (a : Z) (rest : list Z) (last : option exn) (w : World)
    (e : exn) :
  outcome (attempt w) = Raise e ->
  is_Exception e = false ->
  outcome (loop (a :: rest) last w) = Raise e
  /\ world (loop (a :: rest) last w) = world (attempt w)
  /\ emitted (loop (a :: rest) last w) = emitted (attempt w).
Proof.
  intros H C. cbn [attempt_loop].
  rewrite outcome_bind, world_bind, emitted_bind.
  assert (O : outcome ((let* p := attempt in ret (inl p : path + exn)) w) = Raise e)
    by (rewrite outcome_bind, H; reflexivity).
  rewrite (try_except_uncaught _ _ w e O C), O.
  rewrite world_bind, emitted_bind, H, !app_nil_r. repeat split.
Qed.

(** The loop leaves with the last captured error, which is not [None] once
    an attempt was made. *)
Lemma loop_completes_with_error (attempts : list Z) :
  forall (last last' : option exn) (w : World),
    outcome (loop attempts last w) = Ok (inr last') ->
    (attempts <> [] \/ last <> None) ->
    last' <> None.
Proof.
  induction attempts as [| a rest IH]; intros last last' w H D.
  - cbn in H. injection H as <-. destruct D as [D | D]; [contradiction | exact D].
  - destruct (outcome (attempt w)) as [p | e] eqn:O.
    + destruct (loop_attempt_ok a rest last w p O) as [E _].
      rewrite E in H. discriminate.
    + destruct (is_Exception e) eqn:C.
      * destruct (loop_attempt_caught a rest last w e O C) as [E _].
        rewrite E in H. apply (IH (Some e) last' _ H). right. discriminate.
      * destruct (loop_attempt_uncaught a rest last w e O C) as [E _].
        rewrite E in H. discriminate.
Qed.



Lemma py_range_nil (lo hi : Z) : hi <= lo -> py_range lo hi = [].
Proof.
  intros H. unfold py_range. replace (Z.to_nat (hi - lo)) with 0%nat by lia.
  reflexivity.
Qed.

Lemma py_range_cons (lo hi : Z) :
  lo < hi -> py_range lo hi = lo :: py_range (lo + 1) hi.
Proof.
  intros H. unfold py_range.
  replace (Z.to_nat (hi - lo)) with (S (Z.to_nat (hi - (lo + 1)))) by lia.
  cbn [seq List.map]. f_equal; [lia |].
  rewrite <- seq_shift, List.map_map. apply List.map_ext. intros i. lia.
Qed.



End Retry.

(** ** The retry wrapper *)



Example download_with_retry_all_fail :
  outcome (download_with_retry example_url_path (py "http://host/d")
             out_dir_example None 3 2 120 dead_world)
  = Raise (TransportError (py "refused"))
  /\ sleeps (emitted (download_with_retry example_url_path (py "http://host/d")
                        out_dir_example None 3 2 120 dead_world))
     = [2%Q; 2%Q].
Proof. vm_compute. split; reflexivity. Qed.

(** C10: with [retry >= 1], when the loop runs to its end the captured
    error is not [None], so the assertion holds and the error is raised
    again; with [retry <= 0] the call makes no attempt (no event, the world
    untouched) and fails with the assertion error. *)
Theorem download_with_retry_assertion (url_path : pystr -> option pystr)
    (url : pystr) (dest_dir : path) (name_hint : option pystr) (retry : Z)
    (sleep_between timeout_s : Q) (w : World) :
  (1 <= retry ->
   forall last : option exn,
     outcome (attempt_loop url_path url dest_dir name_hint retry sleep_between
                timeout_s (py_range 1 (retry + 1)) None w) = Ok (inr last) ->
     exists e : exn,
       last = Some e
       /\ outcome (download_with_retry url_path url dest_dir name_hint retry
                     sleep_between timeout_s w) = Raise e)
  /\ (retry <= 0 ->
      outcome (download_with_retry url_path url dest_dir name_hint retry
                 sleep_between timeout_s w) = Raise AssertionError
      /\ world (download_with_retry url_path url dest_dir name_hint retry
                  sleep_between timeout_s w) = w
      /\ emitted (download_with_retry url_path url dest_dir name_hint retry
                    sleep_between timeout_s w) = []).
Proof.
  split.
  - intros R last H.
    assert (N : last <> None).
    { apply (loop_completes_with_error url_path url dest_dir name_hint retry
               sleep_between timeout_s _ None last w H).
      left. rewrite py_range_cons by lia. discriminate. }
    destruct last as [e |]; [| contradiction].
    exists e. split; [reflexivity |].
    unfold download_with_retry. rewrite outcome_bind, H. reflexivity.
  - intros R. unfold download_with_retry. rewrite py_range_nil by lia.
    repeat split.
Qed.

(** The theorem on a network that refuses every connection, with two
    attempts. *)
Lemma download_with_retry_assertion_witness :
  exists e : exn,
    Some (TransportError (py "refused")) = Some e
    /\ outcome (download_with_retry example_url_path (py "http://host/d")
                  out_dir_example None 2 2 120 dead_world) = Raise e.
Proof.
  apply (proj1 (download_with_retry_assertion example_url_path (py "http://host/d")
                  out_dir_example None 2 2 120 dead_world)).
  - lia.
  - vm_compute. reflexivity.
Defined.

Example download_with_retry_zero :
  outcome (download_with_retry example_url_path (py "http://host/d")
             out_dir_example None 0 2 120 flaky_world) = Raise AssertionError.
Proof. reflexivity. Qed.

(** ** Calm worlds *)

























(** ** The orchestrator loops *)

Section Orchestrators.

Variable url_path : pystr -> option pystr.
Variable timeout : Q.
Variables (out_dir : path) (retry : Z) (sleep_between : Q) (count : nat).

Abbreviation each := (download_each url_path timeout out_dir retry sleep_between count).
Abbreviation fetch r i :=
  (download_with_retry url_path (res_url r) out_dir (Some (download_name r i)) retry
     sleep_between timeout).



Variables (base fmt_filter : pystr).

Abbreviation listing := (list_packages base fmt_filter count).


End Orchestrators.

Lemma mkdir_ok (p : path) (w : World) (f : filesystem) :
  mkdir_p (fs w) p = Some f ->
  mkdir p w = {| outcome := Ok tt; world := set_fs f w; emitted := [EvMkdir p] |}.
Proof.
  intros H. unfold mkdir.
  rewrite (bind_ok (emit (EvMkdir p)) _ w tt eq_refl).
  cbn [emit outcome world emitted]. unfold fs_call. rewrite H. reflexivity.
Qed.





(** What that run prints: each refused resource is reported and the one
    without URL is skipped. *)
Example download_run_reports_failures :
  List.filter (fun ev => match ev with
                         | EvPrint (MsgFailed _) | EvPrint (MsgNoUrl _ _)
                         | EvPrint MsgDone => true
                         | _ => false
                         end)
    (emitted (action_download_dataset_xlsx example_url_path 120 (py "http://host/")
                (py "teses") (py "/out") 2 0 refusing_world))
  = [EvPrint (MsgFailed (TransportError (py "refused")));
     EvPrint (MsgNoUrl 2 (Some (py "r3")));
     EvPrint MsgDone].
Proof. vm_compute. reflexivity. Qed.

(** ** The group listing *)

Lemma keeps_fs_ret {A : Type} (a : A) : keeps_fs (ret a).
Proof. intros w. reflexivity. Qed.

Lemma keeps_fs_raise {A : Type} (e : exn) : keeps_fs (@raise A e).
Proof. intros w. reflexivity. Qed.

Lemma keeps_fs_emit (ev : event) : keeps_fs (emit ev).
Proof. intros w. reflexivity. Qed.

Lemma keeps_fs_http_get (r : Request) : keeps_fs (http_get r).
Proof. intros w. reflexivity. Qed.

Lemma keeps_fs_bind {A B : Type} (m : M A) (k : A -> M B) :
  keeps_fs m -> (forall a, keeps_fs (k a)) -> keeps_fs (bind m k).
Proof.
  intros Hm Hk w. rewrite world_bind.
  destruct (outcome (m w)); [rewrite Hk |]; apply Hm.
Qed.

Lemma keeps_fs_try_except {A : Type} (m : M A) (h : exn -> M A) :
  keeps_fs m -> (forall e, keeps_fs (h e)) -> keeps_fs (try_except m h).
Proof.
  intros Hm Hh w. unfold try_except.
  destruct (outcome (m w)) as [a | e]; [apply Hm |].
  destruct (is_Exception e); [| apply Hm].
  cbn [world]. rewrite Hh. apply Hm.
Qed.

Lemma keeps_fs_ckan_call (base action : pystr) (params : list (pystr * json)) :
  keeps_fs (ckan_call base action params).
Proof.
  unfold ckan_call. apply keeps_fs_bind; [apply keeps_fs_http_get |]. intros r.
  apply keeps_fs_bind.
  { unfold raise_for_status. destruct (is_success (status r));
      [apply keeps_fs_ret | apply keeps_fs_raise]. }
  intros _. apply keeps_fs_bind.
  { destruct (body_json r); [apply keeps_fs_ret | apply keeps_fs_raise]. }
  intros data. apply keeps_fs_bind.
  { unfold dict_get. destruct data; try apply keeps_fs_raise. apply keeps_fs_ret. }
  intros success. destruct (negb (get_truthy success)); [apply keeps_fs_raise |].
  unfold dict_item. destruct data; try apply keeps_fs_raise.
  destruct (assoc _ _); [apply keeps_fs_ret | apply keeps_fs_raise].
Qed.

(** The resource loop adds, in order, the rows of the resources that pass
    the filter, and touches nothing. *)
Lemma list_resources_rows (fmt_filter : pystr) (t n i : option pystr)
    (resources : list Resource) :
  forall (rows : list Row) (w : World),
    outcome (list_resources fmt_filter t n i resources rows w)
    = Ok (rows ++ List.map (make_row t n i)
                    (List.filter (passes_filter fmt_filter) resources))
    /\ world (list_resources fmt_filter t n i resources rows w) = w.
Proof.
  induction resources as [| r rest IH]; intros rows w; cbn [list_resources].
  - cbn. rewrite app_nil_r. split; reflexivity.
  - cbn [List.filter]. destruct (passes_filter fmt_filter r); cbn [negb].
    + rewrite (bind_ok (print _) _ w tt eq_refl).
      cbn [print emit outcome world emitted].
      destruct (IH (rows ++ [make_row t n i r]) w) as [I1 I2].
      rewrite I1, I2, <- app_assoc. split; reflexivity.
    + apply IH.
Qed.

Lemma keeps_fs_list_packages (base fmt_filter : pystr) (count : nat)
    (packages : list Package) :
  forall i rows, keeps_fs (list_packages base fmt_filter count i packages rows).
Proof.
  induction packages as [| pkg rest IH]; intros i rows; cbn [list_packages].
  - apply keeps_fs_ret.
  - apply keeps_fs_bind; [apply keeps_fs_emit |]. intros _.
    apply keeps_fs_bind.
    + apply keeps_fs_try_except.
      * apply keeps_fs_bind; [apply keeps_fs_ckan_call | intro; apply keeps_fs_ret].
      * intros e. apply keeps_fs_bind; [apply keeps_fs_emit |].
        intros _. apply keeps_fs_ret.
    + intros [[| r resources] |].
      * apply keeps_fs_bind; [apply keeps_fs_emit | intros _; apply IH].
      * apply keeps_fs_bind; [| intros rows'; apply IH].
        intros w. destruct (list_resources_rows fmt_filter
                              (opt_or (pkg_title pkg) (opt_or (pkg_name pkg) (pkg_id pkg)))
                              (opt_or (pkg_name pkg) (pkg_id pkg)) (pkg_id pkg)
                              (r :: resources) rows w) as [_ E].
        rewrite E. reflexivity.
      * apply IH.
Qed.



(** ** The export *)


Lemma append_insert (f : filesystem) (p : path) (c data : list Z) :
  append (<[key p := File c]> f) p data = <[key p := File (c ++ data)]> f.
Proof. unfold append. rewrite lookup_insert_eq, insert_insert_eq. reflexivity. Qed.




(** What [action_list_group] does once the group and its datasets are
    known. *)
Lemma action_list_group_run (args_base args_group : pystr)
    (args_format args_csv : option pystr) (w : World) (res : json)
    (pkg : Package) (rest : list Package) (rows : list Row) :
  let base := rstrip_char 47 args_base in
  let show := ckan_group_show base args_group true w in
  let listing :=
    list_packages base (normalized_filter args_format) (length (pkg :: rest)) 1
      (pkg :: rest) [] (world show) in
  let export : M unit :=
    match opt_or args_csv None, rows with
    | Some out, _ :: _ =>
        let* _ := write_csv out rows in print (MsgCsvExported out)
    | Some _, [] => print MsgNothingToExport
    | None, _ => ret tt
    end in
  outcome show = Ok res ->
  get_packages res = pkg :: rest ->
  outcome listing = Ok rows ->
  action_list_group args_base args_group args_format args_csv w
  = {| outcome := match outcome (export (world listing)) with
                  | Ok _ => Ok 0
                  | Raise e => Raise e
                  end;
       world := world (export (world listing));
       emitted := emitted show ++ emitted listing
                  ++ emitted (export (world listing)) |}.
Proof.
  intros base show listing export H1 H2 H3.
  unfold action_list_group. fold base. fold (normalized_filter args_format).
  rewrite (bind_ok (ckan_group_show base args_group true) _ w res H1).
  fold show. rewrite H2.
  rewrite (bind_ok (list_packages base (normalized_filter args_format)
                      (length (pkg :: rest)) 1 (pkg :: rest) [])
             _ (world show) rows H3).
  fold listing.
  cbn [outcome world emitted]. fold export.
  unfold bind at 1 2 3. 
  destruct (outcome (export (world listing))); cbn [outcome world emitted ret];
    rewrite ?app_nil_r; reflexivity.
Qed.


(** ** Requests of the group listing *)

(** Whatever the answer, [ckan_call] sends one request and does nothing
    else to the world. *)
Lemma ckan_call_world (base action : pystr) (params : list (pystr * json))
    (w : World) :
  world (ckan_call base action params w) = after_requests 1 w.
Proof.
  assert (E : after_requests 1 w = world (http_get (ckan_request base action params) w)).
  { unfold after_requests, http_get. cbn [world fs net nreq]. f_equal. lia. }
  rewrite E. unfold ckan_call, ckan_request.
  rewrite world_bind.
  destruct (outcome (http_get _ w)) as [r |]; [| reflexivity].
  rewrite world_bind. unfold raise_for_status.
  destruct (is_success (status r)); [| reflexivity]. cbn [outcome ret world].
  rewrite world_bind.
  destruct (body_json r) as [data |]; [| reflexivity]. cbn [outcome ret world].
  rewrite world_bind. unfold dict_get.
  destruct data; try reflexivity. cbn [outcome ret world].
  destruct (negb (get_truthy _)); [reflexivity |].
  unfold dict_item. destruct (assoc _ _); reflexivity.
Qed.

Lemma after_requests_add (n m : nat) (w : World) :
  after_requests m (after_requests n w) = after_requests (n + m) w.
Proof. unfold after_requests. cbn [fs net nreq]. f_equal. lia. Qed.

Lemma list_resources_world (fmt_filter : pystr) (t n i : option pystr)
    (resources : list Resource) (rows : list Row) (w : World) :
  world (list_resources fmt_filter t n i resources rows w) = w.
Proof. apply list_resources_rows. Qed.

(** When the dataset loop returns, it has sent one request per dataset
    summary and done nothing else to the world. *)
Lemma list_packages_world (base fmt_filter : pystr) (count : nat)
    (packages : list Package) :
  forall (i : nat) (rows rows' : list Row) (w : World),
    outcome (list_packages base fmt_filter count i packages rows w) = Ok rows' ->
    world (list_packages base fmt_filter count i packages rows w)
    = after_requests (length packages) w.
Proof.
  induction packages as [| pkg rest IH]; intros i rows rows' w H;
    cbn [list_packages] in *.
  - cbn. unfold after_requests. destruct w. cbn. f_equal. lia.
  - rewrite (bind_ok (print _) _ w tt eq_refl) in *.
    cbn [print emit outcome world emitted] in *.
    rewrite outcome_bind in H. rewrite world_bind.
    match goal with
    | |- context [try_except ?m0 ?h w] =>
        set (m := m0) in *;
        assert (W : world (try_except m h w) = after_requests 1 w)
    end.
    { assert (Wm : world (m w) = after_requests 1 w).
      { subst m. rewrite world_bind. unfold ckan_package_show.
        destruct (outcome (ckan_call _ _ _ w)); cbn [world ret];
          apply ckan_call_world. }
      unfold try_except. destruct (outcome (m w)) as [a | e]; [exact Wm |].
      destruct (is_Exception e); [| exact Wm]. exact Wm. }
    clearbody m.
    destruct (outcome (try_except _ _ w)) as [[[| r resources] |] | e];
      try discriminate.
    + rewrite (bind_ok (print MsgNoResources) _ _ tt eq_refl) in *.
      cbn [print emit outcome world emitted] in *.
      rewrite (IH _ _ _ _ H), W, after_requests_add. reflexivity.
    + rewrite outcome_bind in H. rewrite world_bind.
      match type of H with
      | context [list_resources ?f ?t ?n ?d ?l ?rs ?w0] =>
          destruct (list_resources_rows f t n d l rs w0) as [E1 E2]
      end.
      rewrite E1, E2 in *.
      rewrite (IH _ _ _ _ H), W, after_requests_add. reflexivity.
    + rewrite (IH _ _ _ _ H), W, after_requests_add. reflexivity.
Qed.

Lemma list_resources_emitted (fmt_filter : pystr) (t n i : option pystr)
    (resources : list Resource) :
  forall (rows : list Row) (w : World),
    emitted (list_resources fmt_filter t n i resources rows w)
    = List.map resource_line (List.filter (passes_filter fmt_filter) resources).
Proof.
  induction resources as [| r rest IH]; intros rows w; cbn [list_resources].
  - reflexivity.
  - cbn [List.filter]. destruct (passes_filter fmt_filter r); cbn [negb].
    + rewrite (bind_ok (print _) _ w tt eq_refl).
      cbn [print emit outcome world emitted List.map app]. rewrite IH. reflexivity.
    + apply IH.
Qed.


(** ** The group listing: rows, requests and export *)

(** X1: the resource loop of the group listing keeps the rows it was given
    and appends, in the order of the resources, one row for each resource
    that passes the filter and none for the others; it prints one line for
    each of them, never fails and leaves the world as it was.  A dataset
    without a matching resource adds no row and prints nothing. *)
Theorem list_resources_spec (fmt_filter : pystr) (ds_title ds_name ds_id : option pystr)
    (resources : list Resource) (rows : list Row) (w : World) :
  list_resources fmt_filter ds_title ds_name ds_id resources rows w
  = {| outcome := Ok (rows ++ List.map (make_row ds_title ds_name ds_id)
                            (List.filter (passes_filter fmt_filter) resources));
       world := w;
       emitted := List.map resource_line
                    (List.filter (passes_filter fmt_filter) resources) |}.
Proof.
  destruct (list_resources_rows fmt_filter ds_title ds_name ds_id resources rows w)
    as [E1 E2].
  pose proof (list_resources_emitted fmt_filter ds_title ds_name ds_id resources
                rows w) as E3.
  destruct (list_resources _ _ _ _ _ _ w) as [o w' ev].
  cbn [outcome world emitted] in *. subst. reflexivity.
Qed.

Lemma calm_after_requests (n : nat) (w : World) : calm w -> calm (after_requests n w).
Proof. intros C k r. exact (C k r). Qed.









(** X5: when the group has datasets and either no CSV destination was given
    (no path, or the empty path that is the default of the option) or the
    listing gave no row, [action_list_group] returns 0 having written
    nothing: the world differs only by the requests sent, one for the group
    and one per dataset; it reports that there is nothing to export exactly
    when a destination was given. *)
Theorem action_list_group_no_export (args_base args_group : pystr)
    (args_format args_csv : option pystr) (w : World) (res : json)
    (pkg : Package) (rest : list Package) (rows : list Row) :
  let base := rstrip_char 47 args_base in
  let show := ckan_group_show base args_group true w in
  let listing :=
    list_packages base (normalized_filter args_format) (length (pkg :: rest)) 1
      (pkg :: rest) [] (world show) in
  outcome show = Ok res ->
  get_packages res = pkg :: rest ->
  outcome listing = Ok rows ->
  csv_requested args_csv = false \/ rows = [] ->
  action_list_group args_base args_group args_format args_csv w
  = {| outcome := Ok 0;
       world := after_requests (1 + length (pkg :: rest)) w;
       emitted := emitted show ++ emitted listing
                  ++ (if csv_requested args_csv then [EvPrint MsgNothingToExport]
                      else []) |}.
Proof.
  intros base show listing H1 H2 H3 D.
  assert (W : world listing = after_requests (1 + length (pkg :: rest)) w).
  { unfold listing. rewrite (list_packages_world _ _ _ _ _ _ _ _ H3).
    unfold show, ckan_group_show. rewrite ckan_call_world.
    apply after_requests_add. }
  rewrite (action_list_group_run args_base args_group args_format args_csv w res
             pkg rest rows H1 H2 H3).
  fold base. fold show. fold listing. unfold csv_requested in *.
  destruct (opt_or args_csv None) as [out |].
  - destruct D as [D | ->]; [discriminate |].
    cbn [print emit outcome world emitted]. rewrite W. reflexivity.
  - cbn [ret outcome world emitted]. rewrite W. reflexivity.
Qed.

Lemma action_list_group_no_export_witness :
  action_list_group (py "http://host/") (py "teses") (Some (py "pdf"))
    (Some (py "out.csv")) group_world
  = {| outcome := Ok 0;
       world := after_requests 2 group_world;
       emitted :=
         emitted (ckan_group_show (py "http://host") (py "teses") true group_world)
         ++ emitted (list_packages (py "http://host") (py "pdf") 1 1
                       [package_example] [] (after_requests 1 group_world))
         ++ [EvPrint MsgNothingToExport] |}.
Proof.
  apply (action_list_group_no_export (py "http://host/") (py "teses")
           (Some (py "pdf")) (Some (py "out.csv")) group_world group_example
           package_example [] []).
  - vm_compute. reflexivity.
  - vm_compute. reflexivity.
  - vm_compute. reflexivity.
  - right. reflexivity.
Defined.


(** ** Paths and directories *)

Lemma split_from_no_sep (sep : Z) (s : pystr) :
  forall cur, contains s sep = false -> split_from sep cur s = [rev cur ++ s].
Proof.
  induction s as [| c s IH]; intros cur H; cbn [split_from].
  - rewrite app_nil_r. reflexivity.
  - unfold contains in H. cbn [existsb] in H. apply orb_false_iff in H.
    destruct H as [H1 H2]. rewrite Z.eqb_sym in H1. rewrite H1.
    rewrite (IH (c :: cur) H2). cbn [rev]. rewrite <- app_assoc. reflexivity.
Qed.



Lemma rfind_from_found (c : Z) (s : pystr) :
  forall (i : nat) (found : option nat) (j : nat),
    rfind_from c i found s = Some j ->
    found = Some j \/ (i <= j /\ s !! (j - i)%nat = Some c)%nat.
Proof.
  induction s as [| x s IH]; intros i found j H; cbn [rfind_from] in H.
  - left. exact H.
  - destruct (IH _ _ _ H) as [F | [L E]].
    + destruct (x =? c) eqn:X.
      * injection F as <-. right. split; [lia |].
        rewrite Nat.sub_diag. apply Z.eqb_eq in X. subst. reflexivity.
      * left. exact F.
    + right. split; [lia |].
      replace (j - i)%nat with (S (j - S i)) by lia. exact E.
Qed.

Lemma existsb_drop {A : Type} (f : A -> bool) (i : nat) (l : list A) :
  existsb f l = false -> existsb f (drop i l) = false.
Proof.
  revert i. induction l as [| x l IH]; intros [| i] H; try exact H.
  cbn [drop]. cbn [existsb] in H. apply orb_false_iff in H. apply IH, H.
Qed.

(** The suffix of a name is empty or starts at a dot, it is the end of the
    name, and it has no slash when the name has none. *)
Lemma suffix_spec (a : bool) (parts : list pystr) (n : pystr) :
  let old := suffix (a, parts ++ [n]) in
  (if truthy old then take (length n - length old) n else n) ++ old = n
  /\ (old = [] \/ exists rest, old = 46 :: rest)
  /\ (contains n 47 = false -> contains old 47 = false).
Proof.
  unfold suffix, name. cbn [snd]. rewrite List.last_last.
  destruct (rfind_from 46 0 None n) as [i |] eqn:R.
  2:{ cbn. rewrite app_nil_r. repeat split; auto. }
  destruct ((0 <? i)%nat && (i <? length n - 1)%nat) eqn:B.
  2:{ cbn. rewrite app_nil_r. repeat split; auto. }
  apply andb_true_iff in B. destruct B as [B1 B2].
  apply Nat.ltb_lt in B1. apply Nat.ltb_lt in B2.
  destruct (rfind_from_found 46 n 0 None i R) as [F | [_ E]]; [discriminate |].
  rewrite Nat.sub_0_r in E.
  assert (D : drop i n = 46 :: drop (S i) n).
  { apply drop_S. exact E. }
  split; [| split].
  - rewrite D at 1. cbn [truthy]. rewrite length_drop.
    replace (length n - (length n - i))%nat with i by lia. apply take_drop.
  - right. eexists. exact D.
  - intros C. apply existsb_drop. exact C.
Qed.

Lemma py_part : py ".part" = [46; 112; 97; 114; 116].
Proof. reflexivity. Qed.

(** The temporary path of a download: the name of the final path followed
    by [.part], in the same directory. *)
Lemma with_suffix_part (a : bool) (parts : list pystr) (n : pystr) :
  n <> [] -> contains n 47 = false ->
  with_suffix (a, parts ++ [n]) (suffix (a, parts ++ [n]) ++ py ".part")
  = Some (a, parts ++ [n ++ py ".part"]).
Proof.
  intros N C.
  destruct (suffix_spec a parts n) as [S1 [S2 S3]]. specialize (S3 C).
  set (old := suffix (a, parts ++ [n])) in *.
  unfold with_suffix. fold old.
  assert (C' : contains (old ++ py ".part") 47 = false).
  { unfold contains in *. rewrite existsb_app, S3. reflexivity. }
  rewrite C'.
  assert (T : (truthy (old ++ py ".part")
               && negb (startswith (old ++ py ".part") [46]))
              || is_dot (old ++ py ".part") = false).
  { rewrite py_part. destruct S2 as [-> | [rest ->]]; [reflexivity |].
    cbn [app truthy andb]. unfold startswith. cbn [strip_prefix Z.eqb Pos.eqb negb orb].
    unfold is_dot. apply str_eqb_neq. destruct rest; discriminate. }
  rewrite T. unfold name. cbn [fst snd]. rewrite List.last_last.
  destruct n as [| c n']; [contradiction |]. cbn [truthy negb].
  rewrite List.removelast_last. rewrite app_assoc, S1. reflexivity.
Qed.

Lemma normalize_from_resolved (a : bool) (l : list pystr) :
  forall acc,
    Forall (fun x => is_dotdot x = false) l ->
    normalize_from a acc l = rev acc ++ l.
Proof.
  induction l as [| x l IH]; intros acc F; cbn [normalize_from].
  - rewrite app_nil_r. reflexivity.
  - inversion F as [| ? ? X F']; subst. rewrite X, (IH _ F'). cbn [rev].
    rewrite <- app_assoc. reflexivity.
Qed.

Lemma key_resolved (p : path) : resolved p -> key p = p.
Proof.
  intros R. destruct p as [a l]. unfold key. cbn [fst snd].
  rewrite (normalize_from_resolved a l [] R). reflexivity.
Qed.

Lemma mkdir_from_keeps (a : bool) (rest : list pystr) :
  forall (f f1 : filesystem) (pre : list pystr) (q : path),
    mkdir_from f a pre rest = Some f1 ->
    f1 !! q = f !! q \/ (f !! q = None /\ f1 !! q = Some Dir).
Proof.
  induction rest as [| c rest IH]; intros f f1 pre q H; cbn [mkdir_from] in H.
  - injection H as <-. left. reflexivity.
  - destruct (is_dotdot c); [exact (IH _ _ _ q H) |].
    destruct (f !! (a, pre ++ [c])) as [[cnt |] |] eqn:L; [discriminate | |].
    + exact (IH _ _ _ q H).
    + destruct (IH _ _ _ q H) as [E | [E1 E2]].
      * destruct (decide (q = (a, pre ++ [c]))) as [-> | Nq].
        -- right. rewrite E, lookup_insert_eq. split; [exact L | reflexivity].
        -- left. rewrite E. apply lookup_insert_ne. congruence.
      * destruct (decide (q = (a, pre ++ [c]))) as [-> | Nq].
        -- rewrite lookup_insert_eq in E1. discriminate.
        -- right. rewrite lookup_insert_ne in E1 by congruence. split; assumption.
Qed.

(** After [mkdir_from], every component created or met on the way is a
    directory. *)
Lemma mkdir_from_dirs (a : bool) (rest : list pystr) :
  forall (f f1 : filesystem) (pre : list pystr) (k : nat),
    Forall (fun x => is_dotdot x = false) rest ->
    mkdir_from f a pre rest = Some f1 ->
    (0 < k <= length rest)%nat ->
    f1 !! (a, pre ++ take k rest) = Some Dir.
Proof.
  induction rest as [| c rest IH]; intros f f1 pre k F H K; cbn [length] in K;
    [lia |].
  inversion F as [| ? ? X F']; subst. cbn [mkdir_from] in H. rewrite X in H.
  destruct k as [| k]; [lia |]. cbn [take].
  assert (G : exists f', mkdir_from f' a (pre ++ [c]) rest = Some f1
                         /\ f' !! (a, pre ++ [c]) = Some Dir).
  { destruct (f !! (a, pre ++ [c])) as [[cnt |] |] eqn:L; [discriminate | |].
    - exists f. split; assumption.
    - eexists. split; [exact H |]. apply lookup_insert_eq. }
  destruct G as [f' [H' L']].
  destruct k as [| k].
  - rewrite take_0.
    destruct (mkdir_from_keeps a rest f' f1 (pre ++ [c]) (a, pre ++ [c]) H')
      as [E | [E _]]; congruence.
  - replace (pre ++ c :: take (S k) rest) with ((pre ++ [c]) ++ take (S k) rest)
      by (rewrite <- app_assoc; reflexivity).
    apply (IH f' f1 (pre ++ [c]) (S k) F' H'). lia.
Qed.

Lemma resolved_last (l : list pystr) :
  Forall (fun x => is_dotdot x = false) l -> l <> [] ->
  is_dotdot (List.last l []) = false.
Proof.
  intros F N. destruct (exists_last N) as [l' [x ->]].
  rewrite List.last_last. apply Forall_app in F. destruct F as [_ F].
  inversion F. assumption.
Qed.

(** In a resolved path, a path is a directory when it is a top or the
    file system says so. *)
Lemma is_dir_resolved (f : filesystem) (p : path) :
  resolved p ->
  is_dir f p = match snd p with
               | [] => true
               | _ => match f !! p with Some Dir => true | _ => false end
               end.
Proof.
  intros R. unfold is_dir. rewrite (key_resolved p R).
  destruct (snd p) as [| x l] eqn:E; [reflexivity |].
  rewrite <- E. rewrite (resolved_last (snd p)); [reflexivity | exact R |].
  rewrite E. discriminate.
Qed.

(** [mkdir] makes the path and its parent directories. *)
Lemma mkdir_p_is_dir (f f1 : filesystem) (p : path) :
  resolved p -> mkdir_p f p = Some f1 ->
  is_dir f1 p = true /\ is_dir f1 (parent p) = true.
Proof.
  intros R H. unfold mkdir_p in H. rewrite (key_resolved p R) in H.
  destruct p as [a l]. cbn [fst snd] in *. unfold resolved in R. cbn [snd] in R.
  split.
  - rewrite is_dir_resolved by exact R. cbn [snd].
    destruct l as [| x l'] eqn:E; [reflexivity |]. rewrite <- E in *.
    pose proof (mkdir_from_dirs a l f f1 [] (length l) R H) as D.
    rewrite firstn_all in D. cbn [app] in D. rewrite D; [reflexivity |].
    rewrite E. cbn. lia.
  - unfold parent. cbn [fst snd].
    assert (R' : resolved (a, removelast l)).
    { unfold resolved. cbn [snd]. destruct (decide (l = [])) as [-> | N];
        [constructor |].
      destruct (exists_last N) as [l' [x ->]]. rewrite List.removelast_last.
      apply Forall_app in R. apply R. }
    rewrite is_dir_resolved by exact R'. cbn [snd].
    destruct (removelast l) as [| y l''] eqn:E; [reflexivity |]. rewrite <- E.
    destruct (decide (l = [])) as [-> | N]; [discriminate |].
    destruct (exists_last N) as [l' [x ->]]. rewrite List.removelast_last in *.
    pose proof (mkdir_from_dirs a (l' ++ [x]) f f1 [] (length l') R H) as D.
    rewrite take_app_length in D. cbn [app] in D. rewrite D; [reflexivity |].
    rewrite length_app. cbn. destruct l'; [discriminate |]. cbn. lia.
Qed.


(** ** A single download, step by step *)

Lemma set_fs_same (w : World) : set_fs (fs w) w = w.
Proof. destruct w. reflexivity. Qed.

(** The chunk loop appends the chunks to the open file, counts the bytes
    and prints the progress lines. *)
Lemma write_chunks_run (tmp_path : path) (filename : pystr) (total : Z)
    (chunks : list (list Z)) :
  forall (downloaded : Z) (c : list Z) (f : filesystem) (w : World),
    fs w = <[key tmp_path := File c]> f ->
    write_chunks tmp_path filename total downloaded chunks w
    = {| outcome := Ok (downloaded + Z.of_nat (length (List.concat chunks)));
         world := set_fs (<[key tmp_path := File (c ++ List.concat chunks)]> f) w;
         emitted := progress_events filename total downloaded chunks |}.
Proof.
  induction chunks as [| chunk rest IH]; intros d c f w H;
    cbn [write_chunks List.concat progress_events].
  - cbn [length]. rewrite Z.add_0_r, app_nil_r, <- H, set_fs_same. reflexivity.
  - rewrite (bind_ok (fwrite tmp_path chunk) _ w tt eq_refl).
    cbn [fwrite outcome world emitted app].
    assert (H' : fs (set_fs (append (fs w) tmp_path chunk) w)
                 = <[key tmp_path := File (c ++ chunk)]> f).
    { cbn [fs set_fs]. rewrite H. apply append_insert. }
    destruct (negb (total =? 0)).
    + rewrite (bind_ok (print _) _ _ tt eq_refl).
      cbn [print emit outcome world emitted].
      rewrite (IH _ _ _ _ H'). cbn [outcome world emitted set_fs fs net nreq].
      rewrite length_app, Nat2Z.inj_add, Z.add_assoc, <- app_assoc. reflexivity.
    + rewrite (bind_ok (ret tt) _ _ tt eq_refl).
      cbn [ret outcome world emitted].
      rewrite (IH _ _ _ _ H'). cbn [outcome world emitted set_fs fs net nreq app].
      rewrite length_app, Nat2Z.inj_add, Z.add_assoc, <- app_assoc. reflexivity.
Qed.

Lemma parse_total_value (header : option pystr) (total : Z) :
  total_of header = Some total -> parse_total header = ret total.
Proof.
  unfold total_of, parse_total. destruct (opt_or header None) as [text |].
  - intros ->. reflexivity.
  - intros [= <-]. reflexivity.
Qed.

Lemma parse_total_error (header : option pystr) :
  total_of header = None -> parse_total header = raise ValueError.
Proof.
  unfold total_of, parse_total. destruct (opt_or header None) as [text |].
  - intros ->. reflexivity.
  - discriminate.
Qed.

Section SingleDownload.

Variable url_path : pystr -> option pystr.
Variables (url : pystr) (dest_dir : path) (name_hint : option pystr).
Variable timeout_s : Q.
Variables (w : World) (f1 : filesystem).

Hypothesis directory_made : mkdir_p (fs w) dest_dir = Some f1.

(** The connection fails: the error is raised after the directory was made
    and the request sent. *)
Lemma download_stream_no_answer (e : exn) :
  net w (nreq w) (download_request url) = NetFail e ->
  download_stream url_path url dest_dir name_hint timeout_s w
  = {| outcome := Raise e;
       world := requested f1 w;
       emitted := [EvMkdir dest_dir; EvGet (download_request url)] |}.
Proof.
  intros Hn. unfold download_stream.
  pose proof (mkdir_ok dest_dir w f1 directory_made) as M1.
  rewrite (bind_ok (mkdir dest_dir) _ w tt (f_equal outcome M1)), M1.
  cbn [outcome world emitted].
  assert (G : http_get (download_request url) (set_fs f1 w)
              = {| outcome := Raise e; world := requested f1 w;
                   emitted := [EvGet (download_request url)] |}).
  { unfold http_get. cbn [set_fs fs net nreq]. rewrite Hn. reflexivity. }
  fold (download_request url).
  rewrite (bind_raise (http_get (download_request url)) _ _ e (f_equal outcome G)), G.
  reflexivity.
Qed.

Variable r : Response.
Hypothesis answered : net w (nreq w) (download_request url) = NetResp r.

Lemma download_stream_get :
  http_get (download_request url) (set_fs f1 w)
  = {| outcome := Ok r; world := requested f1 w;
       emitted := [EvGet (download_request url)] |}.
Proof. unfold http_get. cbn [set_fs fs net nreq]. rewrite answered. reflexivity. Qed.

(** A status outside 2xx: the error is raised before any file is opened. *)
Lemma download_stream_bad_status :
  is_success (status r) = false ->
  download_stream url_path url dest_dir name_hint timeout_s w
  = {| outcome := Raise (HTTPStatusError (status r));
       world := requested f1 w;
       emitted := [EvMkdir dest_dir; EvGet (download_request url)] |}.
Proof.
  intros Hs. unfold download_stream.
  pose proof (mkdir_ok dest_dir w f1 directory_made) as M1.
  rewrite (bind_ok (mkdir dest_dir) _ w tt (f_equal outcome M1)), M1.
  cbn [outcome world emitted]. fold (download_request url).
  rewrite (bind_ok (http_get (download_request url)) _ _ r
             (f_equal outcome download_stream_get)), download_stream_get.
  cbn [outcome world emitted].
  assert (S1 : raise_for_status r (requested f1 w)
               = {| outcome := Raise (HTTPStatusError (status r));
                    world := requested f1 w; emitted := [] |}).
  { unfold raise_for_status. rewrite Hs. reflexivity. }
  rewrite (bind_raise (raise_for_status r) _ _ _ (f_equal outcome S1)), S1.
  reflexivity.
Qed.

Hypothesis status_ok : is_success (status r) = true.

Abbreviation filename := (guess_filename url_path r url name_hint).
Abbreviation out_path := (joinpath dest_dir filename).

Variable tmp_path : path.
Hypothesis temporary :
  with_suffix out_path (suffix out_path ++ py ".part") = Some tmp_path.

(** A [Content-Length] that is not a number: the error is raised before any
    file is opened. *)
Lemma download_stream_bad_length :
  total_of (content_length r) = None ->
  download_stream url_path url dest_dir name_hint timeout_s w
  = {| outcome := Raise ValueError;
       world := requested f1 w;
       emitted := [EvMkdir dest_dir; EvGet (download_request url)] |}.
Proof.
  intros Hp. unfold download_stream.
  pose proof (mkdir_ok dest_dir w f1 directory_made) as M1.
  rewrite (bind_ok (mkdir dest_dir) _ w tt (f_equal outcome M1)), M1.
  cbn [outcome world emitted]. fold (download_request url).
  rewrite (bind_ok (http_get (download_request url)) _ _ r
             (f_equal outcome download_stream_get)), download_stream_get.
  cbn [outcome world emitted].
  assert (S1 : raise_for_status r (requested f1 w)
               = {| outcome := Ok tt; world := requested f1 w; emitted := [] |}).
  { unfold raise_for_status. rewrite status_ok. reflexivity. }
  rewrite (bind_ok (raise_for_status r) _ _ tt (f_equal outcome S1)), S1.
  cbn [outcome world emitted]. rewrite temporary.
  rewrite (bind_ok (ret tmp_path) _ _ tmp_path eq_refl).
  cbn [ret outcome world emitted].
  rewrite (parse_total_error _ Hp).
  rewrite (bind_raise (raise ValueError) _ _ ValueError eq_refl).
  reflexivity.
Qed.

Variable total : Z.
Hypothesis length_read : total_of (content_length r) = Some total.

(** The temporary file cannot be opened: nothing is written. *)
Lemma download_stream_not_opened :
  open_wb f1 tmp_path = None ->
  download_stream url_path url dest_dir name_hint timeout_s w
  = {| outcome := Raise (OSError (py "open"));
       world := requested f1 w;
       emitted := [EvMkdir dest_dir; EvGet (download_request url)] |}.
Proof.
  intros Ho. unfold download_stream.
  pose proof (mkdir_ok dest_dir w f1 directory_made) as M1.
  rewrite (bind_ok (mkdir dest_dir) _ w tt (f_equal outcome M1)), M1.
  cbn [outcome world emitted]. fold (download_request url).
  rewrite (bind_ok (http_get (download_request url)) _ _ r
             (f_equal outcome download_stream_get)), download_stream_get.
  cbn [outcome world emitted].
  assert (S1 : raise_for_status r (requested f1 w)
               = {| outcome := Ok tt; world := requested f1 w; emitted := [] |}).
  { unfold raise_for_status. rewrite status_ok. reflexivity. }
  rewrite (bind_ok (raise_for_status r) _ _ tt (f_equal outcome S1)), S1.
  cbn [outcome world emitted]. rewrite temporary.
  rewrite (bind_ok (ret tmp_path) _ _ tmp_path eq_refl).
  cbn [ret outcome world emitted].
  rewrite (parse_total_value _ _ length_read).
  rewrite (bind_ok (ret total) _ _ total eq_refl).
  cbn [ret outcome world emitted].
  assert (O1 : fopen tmp_path (requested f1 w)
               = {| outcome := Raise (OSError (py "open"));
                    world := requested f1 w; emitted := [] |}).
  { unfold fopen, fs_call. cbn [requested fs]. rewrite Ho. reflexivity. }
  rewrite (bind_raise (fopen tmp_path) _ _ _ (f_equal outcome O1)), O1.
  reflexivity.
Qed.

Hypothesis opened : open_wb f1 tmp_path <> None.

Abbreviation data := (List.concat (body_chunks r)).
Abbreviation written := (<[key tmp_path := File data]> f1).

(** Once the temporary file is open, it receives every chunk; what follows
    depends on the end of the body and on the renaming. *)
Lemma download_stream_written :
  download_stream url_path url dest_dir name_hint timeout_s w
  = {| outcome :=
         match body_abort r, replace written tmp_path out_path with
         | Some e, _ => Raise e
         | None, Some _ => Ok out_path
         | None, None => Raise (OSError (py "replace"))
         end;
       world :=
         requested
           match body_abort r, replace written tmp_path out_path with
           | None, Some renamed => renamed
           | _, _ => written
           end w;
       emitted :=
         [EvMkdir dest_dir; EvGet (download_request url)]
         ++ progress_events filename total 0 (body_chunks r)
         ++ match body_abort r, replace written tmp_path out_path with
            | None, Some _ =>
                (if negb (total =? 0) then [EvPrint MsgNewline] else [])
                ++ [EvPrint (MsgSaved out_path (Z.of_nat (length data)))]
            | _, _ => []
            end |}.
Proof.
  unfold download_stream.
  pose proof (mkdir_ok dest_dir w f1 directory_made) as M1.
  rewrite (bind_ok (mkdir dest_dir) _ w tt (f_equal outcome M1)), M1.
  cbn [outcome world emitted]. fold (download_request url).
  rewrite (bind_ok (http_get (download_request url)) _ _ r
             (f_equal outcome download_stream_get)), download_stream_get.
  cbn [outcome world emitted].
  assert (S1 : raise_for_status r (requested f1 w)
               = {| outcome := Ok tt; world := requested f1 w; emitted := [] |}).
  { unfold raise_for_status. rewrite status_ok. reflexivity. }
  rewrite (bind_ok (raise_for_status r) _ _ tt (f_equal outcome S1)), S1.
  cbn [outcome world emitted]. rewrite temporary.
  rewrite (bind_ok (ret tmp_path) _ _ tmp_path eq_refl).
  cbn [ret outcome world emitted].
  rewrite (parse_total_value _ _ length_read).
  rewrite (bind_ok (ret total) _ _ total eq_refl).
  cbn [ret outcome world emitted].
  assert (O1 : fopen tmp_path (requested f1 w)
               = {| outcome := Ok tt;
                    world := requested (<[key tmp_path := File []]> f1) w;
                    emitted := [] |}).
  { unfold fopen, fs_call. cbn [requested fs].
    destruct (open_wb f1 tmp_path) as [f2 |] eqn:O; [| contradiction].
    unfold open_wb in O. destruct (is_dir f1 tmp_path); [discriminate |].
    destruct (is_dir f1 (parent _)); [| discriminate]. injection O as <-.
    reflexivity. }
  rewrite (bind_ok (fopen tmp_path) _ _ tt (f_equal outcome O1)), O1.
  cbn [outcome world emitted].
  rewrite (bind_ok _ _ _ _
             (f_equal outcome
                (write_chunks_run tmp_path filename total (body_chunks r) 0 [] f1
                   (requested (<[key tmp_path := File []]> f1) w) eq_refl))).
  rewrite (write_chunks_run tmp_path filename total (body_chunks r) 0 [] f1
             (requested (<[key tmp_path := File []]> f1) w) eq_refl).
  cbn [outcome world emitted app set_fs requested fs net nreq Z.add].
  fold (requested written w).
  destruct (body_abort r) as [e |].
  { rewrite (bind_raise (raise e) _ _ e eq_refl). cbn [raise outcome world emitted].
    rewrite ?app_nil_r. reflexivity. }
  rewrite (bind_ok (ret tt) _ _ tt eq_refl). cbn [ret outcome world emitted app].
  unfold rename.
  destruct (replace written tmp_path out_path) as [renamed |] eqn:Rn.
  - assert (R1 : fs_call (py "replace") (fun f => replace f tmp_path out_path)
                   (requested written w)
                 = {| outcome := Ok tt; world := requested renamed w;
                      emitted := [] |}).
    { unfold fs_call. cbn [requested fs]. rewrite Rn. reflexivity. }
    rewrite (bind_ok _ _ _ tt (f_equal outcome R1)), R1.
    cbn [outcome world emitted app].
    destruct (negb (total =? 0)).
    + rewrite (bind_ok (print MsgNewline) _ _ tt eq_refl).
      rewrite (bind_ok (print (MsgSaved _ _)) _ _ tt eq_refl).
      cbn [print emit ret outcome world emitted app]. rewrite ?app_nil_r.
      reflexivity.
    + rewrite (bind_ok (ret tt) _ _ tt eq_refl).
      cbn [ret outcome world emitted].
      rewrite (bind_ok (print _) _ _ tt eq_refl).
      cbn [print emit ret outcome world emitted app]. rewrite ?app_nil_r.
      reflexivity.
  - assert (R1 : fs_call (py "replace") (fun f => replace f tmp_path out_path)
                   (requested written w)
                 = {| outcome := Raise (OSError (py "replace"));
                      world := requested written w; emitted := [] |}).
    { unfold fs_call. cbn [requested fs]. rewrite Rn. reflexivity. }
    rewrite (bind_raise _ _ _ _ (f_equal outcome R1)), R1.
    cbn [outcome world emitted]. rewrite ?app_nil_r. reflexivity.
Qed.

End SingleDownload.


(** ** The name and the paths of a download *)

Lemma sanitize_filename_nonempty (name : pystr) : sanitize_filename name <> [].
Proof.
  unfold sanitize_filename, str_or.
  destruct (truthy _) eqn:T; [| discriminate].
  intros E. rewrite E in T. discriminate.
Qed.

Lemma safe_chars_app (a b : pystr) :
  Forall (fun c => unsafe_char c = false /\ isspace c = false) a ->
  Forall (fun c => unsafe_char c = false /\ isspace c = false) b ->
  Forall (fun c => unsafe_char c = false /\ isspace c = false) (a ++ b).
Proof. intros A B. apply Forall_app. split; assumption. Qed.

Lemma safe_chars_xlsx :
  Forall (fun c => unsafe_char c = false /\ isspace c = false) (py ".xlsx").
Proof. repeat constructor. Qed.

Lemma safe_chars_default :
  Forall (fun c => unsafe_char c = false /\ isspace c = false) (py "arquivo.xlsx").
Proof. repeat constructor. Qed.

(** The name that [guess_filename] gives is not empty and holds none of the
    characters that [sanitize_filename] removes. *)
Lemma guess_filename_chars (url_path : pystr -> option pystr) (resp : Response)
    (fallback_url : pystr) (name_hint : option pystr) :
  guess_filename url_path resp fallback_url name_hint <> []
  /\ Forall (fun c => unsafe_char c = false /\ isspace c = false)
       (guess_filename url_path resp fallback_url name_hint).
Proof.
  unfold guess_filename.
  destruct (cd_search _) as [token |].
  { split; [apply sanitize_filename_nonempty | apply sanitize_filename_chars]. }
  unfold url_filename.
  destruct (url_path _) as [p |].
  - destruct (truthy p).
    + destruct (truthy (name (path_parse p))).
      * split; [apply sanitize_filename_nonempty | apply sanitize_filename_chars].
      * unfold hint_filename. destruct (opt_or name_hint None) as [hint |].
        -- destruct (endswith _ _).
           ++ split; [apply sanitize_filename_nonempty | apply sanitize_filename_chars].
           ++ split.
              ** intros E. apply app_eq_nil in E. destruct E as [E _].
                 exact (sanitize_filename_nonempty _ E).
              ** apply safe_chars_app;
                   [apply sanitize_filename_chars | apply safe_chars_xlsx].
        -- split; [discriminate | apply safe_chars_default].
    + unfold hint_filename. destruct (opt_or name_hint None) as [hint |].
      * destruct (endswith _ _).
        -- split; [apply sanitize_filename_nonempty | apply sanitize_filename_chars].
        -- split.
           ++ intros E. apply app_eq_nil in E. destruct E as [E _].
              exact (sanitize_filename_nonempty _ E).
           ++ apply safe_chars_app;
                [apply sanitize_filename_chars | apply safe_chars_xlsx].
      * split; [discriminate | apply safe_chars_default].
  - unfold hint_filename. destruct (opt_or name_hint None) as [hint |].
    + destruct (endswith _ _).
      * split; [apply sanitize_filename_nonempty | apply sanitize_filename_chars].
      * split.
        -- intros E. apply app_eq_nil in E. destruct E as [E _].
           exact (sanitize_filename_nonempty _ E).
        -- apply safe_chars_app;
             [apply sanitize_filename_chars | apply safe_chars_xlsx].
    + split; [discriminate | apply safe_chars_default].
Qed.

Lemma safe_chars_no_slash (s : pystr) :
  Forall (fun c => unsafe_char c = false /\ isspace c = false) s ->
  contains s 47 = false.
Proof.
  induction 1 as [| c s [U _] _ IH]; [reflexivity |].
  unfold contains in *. cbn [existsb]. rewrite IH, orb_false_r.
  destruct (47 =? c) eqn:E; [| reflexivity].
  apply Z.eqb_eq in E. subst. discriminate.
Qed.

Lemma is_dotdot_part (n : pystr) : n <> [] -> is_dotdot (n ++ py ".part") = false.
Proof.
  intros N. unfold is_dotdot. apply str_eqb_neq. rewrite py_part. intros E.
  apply (f_equal (@length Z)) in E. rewrite length_app in E. cbn in E. lia.
Qed.

(** Whether an entry of a resolved directory is a directory. *)
Lemma is_dir_entry (f : filesystem) (a : bool) (parts : list pystr) (x : pystr) :
  resolved (a, parts) -> is_dotdot x = false ->
  is_dir f (a, parts ++ [x])
  = match f !! (a, parts ++ [x]) with Some Dir => true | _ => false end.
Proof.
  intros R X.
  assert (R' : resolved (a, parts ++ [x])).
  { unfold resolved in *. cbn [snd] in *. apply Forall_app. split; [exact R |].
    constructor; [exact X | constructor]. }
  rewrite (is_dir_resolved f _ R'). cbn [snd].
  destruct (parts ++ [x]) eqn:E; [| reflexivity].
  destruct parts; discriminate.
Qed.

(** Writing a file elsewhere does not change whether a path is a
    directory. *)
Lemma is_dir_insert_ne (f : filesystem) (p k : path) (v : node) :
  resolved p -> p <> k -> is_dir (<[k := v]> f) p = is_dir f p.
Proof.
  intros R N. rewrite !(is_dir_resolved _ p R).
  destruct (snd p); [reflexivity |].
  rewrite lookup_insert_ne by congruence. reflexivity.
Qed.


Lemma part_neq (n : pystr) : n <> n ++ py ".part".
Proof.
  intros E. apply (f_equal (@length Z)) in E. rewrite length_app, py_part in E.
  cbn in E. lia.
Qed.

(** [mkdir] creates directories only: the files are those of before. *)
Lemma mkdir_p_files (f f1 : filesystem) (p q : path) (c : list Z) :
  mkdir_p f p = Some f1 ->
  f1 !! q = Some (File c) <-> f !! q = Some (File c).
Proof.
  intros H. unfold mkdir_p in H.
  destruct (mkdir_from_keeps _ _ _ _ _ q H) as [E | [E1 E2]].
  - rewrite E. reflexivity.
  - rewrite E1, E2. split; discriminate.
Qed.


(** ** A single download: what is on disk afterwards *)

(** X6: when the server answers with a status outside 2xx,
    [download_stream] raises the HTTP status error after creating the
    destination directory and sending the one request; no file is opened:
    the files on disk are exactly those of before. *)
Theorem download_stream_http_error (url_path : pystr -> option pystr)
    (url : pystr) (dest_dir : path) (name_hint : option pystr) (timeout_s : Q)
    (w : World) (f1 : filesystem) (r : Response) :
  mkdir_p (fs w) dest_dir = Some f1 ->
  net w (nreq w) (download_request url) = NetResp r ->
  is_success (status r) = false ->
  download_stream url_path url dest_dir name_hint timeout_s w
  = {| outcome := Raise (HTTPStatusError (status r));
       world := requested f1 w;
       emitted := [EvMkdir dest_dir; EvGet (download_request url)] |}
  /\ forall (q : path) (c : list Z),
       f1 !! q = Some (File c) <-> fs w !! q = Some (File c).
Proof.
  intros Hm Hn Hs. split.
  - exact (download_stream_bad_status url_path url dest_dir name_hint timeout_s w
             f1 Hm r Hn Hs).
  - intros q c. exact (mkdir_p_files (fs w) f1 dest_dir q c Hm).
Qed.

Lemma download_stream_http_error_witness :
  outcome (download_stream example_url_path (py "http://host/files/b.xlsx")
             out_dir_example None 120
             (world_answering (NetResp (json_response 404 None))))
  = Raise (HTTPStatusError 404).
Proof.
  destruct (download_stream_http_error example_url_path
              (py "http://host/files/b.xlsx") out_dir_example None 120
              (world_answering (NetResp (json_response 404 None)))
              (<[out_dir_example := Dir]> ∅) (json_response 404 None))
    as [E _].
  - vm_compute. reflexivity.
  - reflexivity.
  - reflexivity.
  - rewrite E. reflexivity.
Defined.

Section Outcome.

Variable url_path : pystr -> option pystr.
Variables (url : pystr) (name_hint : option pystr) (timeout_s : Q).
Variables (anchored : bool) (parts : list pystr).
Variables (w : World) (f1 : filesystem) (r : Response) (total : Z).

Abbreviation dest_dir := (anchored, parts).
Abbreviation filename := (guess_filename url_path r url name_hint).
Abbreviation final := (anchored, parts ++ [filename]).
Abbreviation temp := (anchored, parts ++ [filename ++ py ".part"]).
Abbreviation data := (List.concat (body_chunks r)).

Hypothesis dest_resolved : resolved dest_dir.
Hypothesis directory_made : mkdir_p (fs w) dest_dir = Some f1.
Hypothesis answered : net w (nreq w) (download_request url) = NetResp r.
Hypothesis status_ok : is_success (status r) = true.
Hypothesis length_read : total_of (content_length r) = Some total.
Hypothesis not_dot : is_dot filename = false.
Hypothesis not_dotdot : is_dotdot filename = false.
Hypothesis final_free : f1 !! final <> Some Dir.
Hypothesis temp_free : f1 !! temp <> Some Dir.










End Outcome.







(** X9: a name that is a single dot.  When the resolved name is the single
    dot (a [Content-Disposition] header can say so), the final path is the
    destination directory itself and the temporary path is its sibling, the
    name of the directory followed by [.part]: the body is written there,
    outside the destination directory, the renaming onto the directory
    fails with an operating-system error, and the sibling file stays. *)
Theorem download_stream_dot_name (url_path : pystr -> option pystr)
    (url : pystr) (name_hint : option pystr) (timeout_s : Q)
    (anchored : bool) (init : list pystr) (last : pystr)
    (w : World) (f1 : filesystem) (r : Response) (total : Z) :
  let dest_dir := (anchored, init ++ [last]) in
  let sibling := (anchored, init ++ [last ++ py ".part"]) in
  let data := List.concat (body_chunks r) in
  resolved dest_dir ->
  last <> [] ->
  contains last 47 = false ->
  mkdir_p (fs w) dest_dir = Some f1 ->
  net w (nreq w) (download_request url) = NetResp r ->
  is_success (status r) = true ->
  total_of (content_length r) = Some total ->
  body_abort r = None ->
  guess_filename url_path r url name_hint = py "." ->
  f1 !! sibling <> Some Dir ->
  download_stream url_path url dest_dir name_hint timeout_s w
  = {| outcome := Raise (OSError (py "replace"));
       world := requested (<[sibling := File data]> f1) w;
       emitted :=
         [EvMkdir dest_dir; EvGet (download_request url)]
         ++ progress_events (py ".") total 0 (body_chunks r) |}
  /\ (<[sibling := File data]> f1) !! sibling = Some (File data)
  /\ (<[sibling := File data]> f1) !! dest_dir = Some Dir.
Proof.
  intros dest_dir sibling data R N C Hm Hn Hs Hl Ha G F.
  subst dest_dir sibling data.
  assert (Ri : resolved (anchored, init)).
  { unfold resolved in *. cbn [snd] in *. apply Forall_app in R. apply R. }
  assert (Dl : is_dotdot last = false).
  { unfold resolved in R. cbn [snd] in R. apply Forall_app in R.
    destruct R as [_ R]. inversion R. assumption. }
  assert (Rs : resolved (anchored, init ++ [last ++ py ".part"])).
  { unfold resolved in *. cbn [snd] in *. apply Forall_app. split; [apply Ri |].
    constructor; [apply is_dotdot_part, N | constructor]. }
  assert (J : joinpath (anchored, init ++ [last]) (py ".")
              = (anchored, init ++ [last])).
  { unfold joinpath. change (path_parse (py ".")) with (false, @nil pystr).
    cbn [fst snd]. rewrite app_nil_r. reflexivity. }
  assert (T : with_suffix
                (joinpath (anchored, init ++ [last])
                   (guess_filename url_path r url name_hint))
                (suffix (joinpath (anchored, init ++ [last])
                           (guess_filename url_path r url name_hint))
                 ++ py ".part")
              = Some (anchored, init ++ [last ++ py ".part"])).
  { rewrite G, J. apply with_suffix_part; assumption. }
  destruct (mkdir_p_is_dir (fs w) f1 (anchored, init ++ [last]) R Hm) as [D1 D2].
  assert (D2' : is_dir f1 (anchored, init) = true).
  { unfold parent in D2. cbn [fst snd] in D2. rewrite List.removelast_last in D2.
    exact D2. }
  assert (Ns : (anchored, init ++ [last])
               <> (anchored, init ++ [last ++ py ".part"])).
  { intros E. injection E as E. apply app_inv_head in E. injection E as E.
    exact (part_neq _ E). }
  assert (O : open_wb f1 (anchored, init ++ [last ++ py ".part"]) <> None).
  { unfold open_wb.
    rewrite (is_dir_entry f1 anchored init _ Ri (is_dotdot_part last N)).
    rewrite (key_resolved (anchored, init ++ [last ++ py ".part"]) Rs).
    unfold parent. cbn [fst snd].
    rewrite List.removelast_last, D2'.
    destruct (f1 !! (anchored, init ++ [last ++ py ".part"])) as [[c |] |] eqn:L;
      try discriminate.
    congruence. }
  assert (Rn : replace
                 (<[(anchored, init ++ [last ++ py ".part"])
                    := File (List.concat (body_chunks r))]> f1)
                 (anchored, init ++ [last ++ py ".part"])
                 (anchored, init ++ [last]) = None).
  { unfold replace.
    rewrite (key_resolved (anchored, init ++ [last ++ py ".part"]) Rs).
    rewrite lookup_insert_eq.
    rewrite (is_dir_insert_ne f1 (anchored, init ++ [last])
               (anchored, init ++ [last ++ py ".part"]) _ R Ns), D1.
    reflexivity. }
  split.
  - rewrite (download_stream_written url_path url (anchored, init ++ [last])
               name_hint timeout_s w f1 Hm r Hn Hs
               (anchored, init ++ [last ++ py ".part"]) T total Hl O).
    rewrite G, J, (key_resolved (anchored, init ++ [last ++ py ".part"]) Rs).
    rewrite Ha, Rn, app_nil_r.
    reflexivity.
  - split; [apply lookup_insert_eq |].
    rewrite lookup_insert_ne by (intros E; exact (Ns (eq_sym E))).
    rewrite (is_dir_entry f1 anchored init last Ri Dl) in D1.
    destruct (f1 !! (anchored, init ++ [last])) as [[c |] |]; try discriminate.
    reflexivity.
Qed.

Lemma download_stream_dot_name_witness :
  let run := download_stream example_url_path (py "http://host/files/b.xlsx")
               out_dir_example None 120 (world_answering (NetResp dot_response)) in
  outcome run = Raise (OSError (py "replace"))
  /\ fs (world run) !! (true, [py "out.part"]) = Some (File [80; 75; 3])
  /\ fs (world run) !! (true, [py "out"]) = Some Dir.
Proof.
  destruct (download_stream_dot_name example_url_path
              (py "http://host/files/b.xlsx") None 120 true [] (py "out")
              (world_answering (NetResp dot_response))
              (<[out_dir_example := Dir]> ∅) dot_response 0)
    as [E [L1 L2]].
  - repeat constructor.
  - discriminate.
  - reflexivity.
  - vm_compute. reflexivity.
  - reflexivity.
  - reflexivity.
  - reflexivity.
  - reflexivity.
  - vm_compute. reflexivity.
  - vm_compute. discriminate.
  - cbv zeta. change out_dir_example with (true, [] ++ [py "out"]). rewrite E.
    cbn [outcome world fs requested].
    split; [reflexivity |]. split; [exact L1 | exact L2].
Defined.

(** X10: a [Content-Length] that Python's [int] does not read.  When the
    answer has a 2xx status and a [Content-Length] header that is not empty
    and not a number, [download_stream] raises the value error after the
    request, before any file is opened: the files on disk are those of
    before. *)
Theorem download_stream_bad_content_length (url_path : pystr -> option pystr)
    (url : pystr) (dest_dir : path) (name_hint : option pystr) (timeout_s : Q)
    (w : World) (f1 : filesystem) (r : Response) (text : pystr) (tmp_path : path) :
  mkdir_p (fs w) dest_dir = Some f1 ->
  net w (nreq w) (download_request url) = NetResp r ->
  is_success (status r) = true ->
  with_suffix (joinpath dest_dir (guess_filename url_path r url name_hint))
    (suffix (joinpath dest_dir (guess_filename url_path r url name_hint))
     ++ py ".part") = Some tmp_path ->
  content_length r = Some text ->
  text <> [] ->
  py_int 10 text = None ->
  download_stream url_path url dest_dir name_hint timeout_s w
  = {| outcome := Raise ValueError;
       world := requested f1 w;
       emitted := [EvMkdir dest_dir; EvGet (download_request url)] |}
  /\ forall (q : path) (c : list Z),
       f1 !! q = Some (File c) <-> fs w !! q = Some (File c).
Proof.
  intros Hm Hn Hs T Hc N P. split.
  - apply (download_stream_bad_length url_path url dest_dir name_hint timeout_s w
             f1 Hm r Hn Hs tmp_path T).
    unfold total_of. rewrite Hc. destruct text; [contradiction |]. exact P.
  - intros q c. exact (mkdir_p_files (fs w) f1 dest_dir q c Hm).
Qed.

Lemma download_stream_bad_content_length_witness :
  outcome (download_stream example_url_path (py "http://host/files/b.xlsx")
             out_dir_example None 120
             (world_answering (NetResp unmeasured_response)))
  = Raise ValueError.
Proof.
  destruct (download_stream_bad_content_length example_url_path
              (py "http://host/files/b.xlsx") out_dir_example None 120
              (world_answering (NetResp unmeasured_response))
              (<[out_dir_example := Dir]> ∅) unmeasured_response (py "3 bytes")
              (true, [py "out"; py "b.xlsx.part"]))
    as [E _].
  - vm_compute. reflexivity.
  - reflexivity.
  - reflexivity.
  - vm_compute. reflexivity.
  - reflexivity.
  - discriminate.
  - vm_compute. reflexivity.
  - rewrite E. reflexivity.
Defined.


(** ** File names *)

(** X11: whatever the answer, the URL and the hint, the name that
    [guess_filename] gives is not empty and holds no slash, backslash, any
    other character that [sanitize_filename] replaces, or white space.
    Joined to a directory it therefore names the directory itself (when it
    is the single dot) or one component appended to it: never an absolute
    path, never a path through a sub-directory. *)
Theorem guess_filename_names_an_entry (url_path : pystr -> option pystr)
    (resp : Response) (fallback_url : pystr) (name_hint : option pystr) (p : path) :
  let n := guess_filename url_path resp fallback_url name_hint in
  n <> []
  /\ Forall (fun c => unsafe_char c = false /\ isspace c = false) n
  /\ joinpath p n = (fst p, snd p ++ (if is_dot n then [] else [n])).
Proof.
  intros n. destruct (guess_filename_chars url_path resp fallback_url name_hint)
    as [N F]. fold n in N, F.
  split; [exact N |]. split; [exact F |].
  pose proof (safe_chars_no_slash n F) as C.
  unfold joinpath, path_parse, split_on.
  rewrite (split_from_no_sep 47 n [] C). cbn [rev app List.filter].
  destruct n as [| c n']; [contradiction |]. cbn [truthy andb].
  assert (S : startswith (c :: n') [47] = false).
  { unfold contains in C. cbn [existsb] in C. apply orb_false_iff in C.
    destruct C as [C _]. unfold startswith. cbn [strip_prefix]. rewrite C.
    reflexivity. }
  rewrite S. cbn [fst snd]. destruct (is_dot (c :: n')); reflexivity.
Qed.

Lemma lstrip_clean (s : pystr) :
  Forall (fun c => isspace c = false) s -> lstrip s = s.
Proof. destruct 1 as [| c s H _]; [reflexivity |]. cbn [lstrip]. rewrite H. reflexivity. Qed.

Lemma strip_clean (s : pystr) :
  Forall (fun c => isspace c = false) s -> strip s = s.
Proof.
  intros F. unfold strip, rstrip. rewrite (lstrip_clean s F).
  rewrite lstrip_clean by (apply List.Forall_rev; exact F). apply rev_involutive.
Qed.

Lemma sub_runs_from_clean (cls : Z -> bool) (rep : Z) (s : pystr) :
  forall b, Forall (fun c => cls c = false) s -> sub_runs_from cls rep b s = s.
Proof.
  induction s as [| c s IH]; intros b F; [reflexivity |].
  inversion F as [| ? ? H F']; subst. cbn [sub_runs_from]. rewrite H, (IH false F').
  reflexivity.
Qed.

Lemma replace_char_clean (x y : Z) (s : pystr) :
  Forall (fun c => (c =? x) = false) s -> replace_char x y s = s.
Proof.
  induction 1 as [| c s H _ IH]; [reflexivity |].
  unfold replace_char in *. cbn [List.map]. rewrite H, IH. reflexivity.
Qed.

(** A name that is not empty and holds no character that
    [sanitize_filename] touches is left as it is. *)
Lemma sanitize_filename_clean (s : pystr) :
  s <> [] ->
  Forall (fun c => unsafe_char c = false /\ isspace c = false) s ->
  sanitize_filename s = s.
Proof.
  intros N F.
  assert (Fs : Forall (fun c => isspace c = false) s)
    by (eapply List.Forall_impl; [| exact F]; intros c [_ H]; exact H).
  assert (Fu : Forall (fun c => unsafe_char c = false) s)
    by (eapply List.Forall_impl; [| exact F]; intros c [H _]; exact H).
  assert (Fb : Forall (fun c => (c =? 32) = false) s).
  { eapply List.Forall_impl; [| exact Fs]. intros c H.
    destruct (c =? 32) eqn:E; [| reflexivity].
    apply Z.eqb_eq in E. subst. discriminate. }
  unfold sanitize_filename, sub_runs.
  rewrite (strip_clean s Fs), (sub_runs_from_clean _ _ s false Fu).
  rewrite (sub_runs_from_clean _ _ s false Fs), (strip_clean s Fs).
  rewrite (replace_char_clean 32 95 s Fb).
  destruct s; [contradiction | reflexivity].
Qed.

(** X12: [sanitize_filename] is idempotent: a sanitized name is left as it
    is by a second pass. *)
Theorem sanitize_filename_idempotent (name : pystr) :
  sanitize_filename (sanitize_filename name) = sanitize_filename name.
Proof.
  apply sanitize_filename_clean;
    [apply sanitize_filename_nonempty | apply sanitize_filename_chars].
Qed.

(** X13: the display name of a resource is never empty: it is the name,
    else the description, else the identifier, else the literal
    placeholder.  The numbered fallback name of the download loop is
    therefore never used: the hint passed to the downloader is always the
    display name. *)
Theorem res_pretty_name_nonempty (r : Resource) (i : nat) :
  res_pretty_name r <> []
  /\ download_name r i = res_pretty_name r
  /\ (res_pretty_name r = placeholder
      \/ Some (res_pretty_name r) = r_name r
      \/ Some (res_pretty_name r) = r_description r
      \/ Some (res_pretty_name r) = r_id r).
Proof.
  assert (N : res_pretty_name r <> []).
  { unfold res_pretty_name, field_or, opt_or.
    destruct (r_name r) as [[| c s] |]; destruct (r_description r) as [[| c' s'] |];
      destruct (r_id r) as [[| c'' s''] |]; discriminate. }
  split; [exact N |]. split.
  - unfold download_name, str_or. destruct (res_pretty_name r);
      [contradiction | reflexivity].
  - unfold res_pretty_name, field_or, opt_or.
    destruct (r_name r) as [[| c s] |]; destruct (r_description r) as [[| c' s'] |];
      destruct (r_id r) as [[| c'' s''] |]; auto.
Qed.


(** ** The dataset actions *)






(** ** The exit code *)

Lemma main_run_raise (action : M Z) (w : World) (e : exn) :
  outcome (action w) = Raise e ->
  main_run action w
  = {| outcome := Ok (exit_code e);
       world := world (action w);
       emitted := emitted (action w) ++ [EvPrint (exit_line e)] |}.
Proof.
  intros H. unfold main_run. rewrite H. destruct e; reflexivity.
Qed.

(** X16: the first call of each action is not protected.  When the initial
    [package_show] or [group_show] raises, whatever it raises, the action
    stops there, and [main] turns the failure into an exit code and a last
    line: 130 for an interrupt, 2 for an HTTP status or transport error, 1
    for anything else (a body that is not JSON, an unsuccessful envelope, a
    missing [result]); only the one request was sent and the file system is
    as it was. *)
Theorem main_first_call_fails (url_path : pystr -> option pystr) (timeout : Q)
    (args_base args_dataset args_group args_out : pystr)
    (args_format args_csv : option pystr) (args_retry : Z) (args_sleep : Q)
    (w : World) (e : exn) :
  let base := rstrip_char 47 args_base in
  (outcome (ckan_package_show base (Some args_dataset) w) = Raise e ->
   main_run (action_list_dataset_xlsx args_base args_dataset) w
   = {| outcome := Ok (exit_code e);
        world := after_requests 1 w;
        emitted := emitted (ckan_package_show base (Some args_dataset) w)
                   ++ [EvPrint (exit_line e)] |}
   /\ main_run (action_download_dataset_xlsx url_path timeout args_base
                  args_dataset args_out args_retry args_sleep) w
      = {| outcome := Ok (exit_code e);
           world := after_requests 1 w;
           emitted := EvPrint (MsgQuerying args_dataset)
                      :: emitted (ckan_package_show base (Some args_dataset) w)
                      ++ [EvPrint (exit_line e)] |})
  /\ (outcome (ckan_group_show base args_group true w) = Raise e ->
      main_run (action_list_group args_base args_group args_format args_csv) w
      = {| outcome := Ok (exit_code e);
           world := after_requests 1 w;
           emitted := emitted (ckan_group_show base args_group true w)
                      ++ [EvPrint (exit_line e)] |}).
Proof.
  intros base. split.
  - intros H.
    assert (W : world (ckan_package_show base (Some args_dataset) w)
                = after_requests 1 w)
      by (unfold ckan_package_show; apply ckan_call_world).
    split.
    + assert (A : action_list_dataset_xlsx args_base args_dataset w
                  = {| outcome := Raise e; world := after_requests 1 w;
                       emitted := emitted (ckan_package_show base
                                             (Some args_dataset) w) |}).
      { unfold action_list_dataset_xlsx. fold base.
        rewrite (bind_raise (ckan_package_show base (Some args_dataset)) _ w e H), W.
        reflexivity. }
      rewrite (main_run_raise _ w e (f_equal outcome A)), A. reflexivity.
    + assert (A : action_download_dataset_xlsx url_path timeout args_base
                    args_dataset args_out args_retry args_sleep w
                  = {| outcome := Raise e; world := after_requests 1 w;
                       emitted := EvPrint (MsgQuerying args_dataset)
                                  :: emitted (ckan_package_show base
                                                (Some args_dataset) w) |}).
      { unfold action_download_dataset_xlsx. fold base.
        rewrite (bind_ok (print (MsgQuerying args_dataset)) _ w tt eq_refl).
        cbn [print emit outcome world emitted].
        rewrite (bind_raise (ckan_package_show base (Some args_dataset)) _ w e H), W.
        reflexivity. }
      rewrite (main_run_raise _ w e (f_equal outcome A)), A. reflexivity.
  - intros H.
    assert (W : world (ckan_group_show base args_group true w) = after_requests 1 w)
      by (unfold ckan_group_show; apply ckan_call_world).
    assert (A : action_list_group args_base args_group args_format args_csv w
                = {| outcome := Raise e; world := after_requests 1 w;
                     emitted := emitted (ckan_group_show base args_group true w) |}).
    { unfold action_list_group. fold base.
      rewrite (bind_raise (ckan_group_show base args_group true) _ w e H), W.
      reflexivity. }
    rewrite (main_run_raise _ w e (f_equal outcome A)), A. reflexivity.
Qed.

Lemma main_first_call_fails_witness :
  outcome (main_run (action_list_group (py "http://host/") (py "teses") None
                       (Some (py "out.csv")))
             (world_answering (NetResp (json_response 404 None))))
  = Ok 2.
Proof.
  rewrite (proj2 (main_first_call_fails example_url_path 120 (py "http://host/")
                    (py "d") (py "teses") (py "/out") None (Some (py "out.csv"))
                    3 2 (world_answering (NetResp (json_response 404 None)))
                    (HTTPStatusError 404))).
  - reflexivity.
  - vm_compute. reflexivity.
Defined.


(** ** An interrupt during a retried download *)

Section Interrupt.

Variable url_path : pystr -> option pystr.
Variables (url : pystr) (dest_dir : path) (name_hint : option pystr).
Variables (retry : Z) (sleep_between timeout_s : Q).

Abbreviation attempt := (download_stream url_path url dest_dir name_hint timeout_s).
Abbreviation loop := (attempt_loop url_path url dest_dir name_hint retry
                    sleep_between timeout_s).


End Interrupt.




(** ** Percent-decoding inverts percent-encoding *)

Lemma hex_digit_value (l : bool) (n : Z) :
  0 <= n < 16 ->
  is_hex (hex_digit l n) = true /\ digit_value (hex_digit l n) = n.
Proof.
  intros H.
  assert (I : In n [0; 1; 2; 3; 4; 5; 6; 7; 8; 9; 10; 11; 12; 13; 14; 15])
    by (simpl; lia).
  assert (K : forallb (fun l => forallb (fun n =>
                is_hex (hex_digit l n) && (digit_value (hex_digit l n) =? n))
                [0; 1; 2; 3; 4; 5; 6; 7; 8; 9; 10; 11; 12; 13; 14; 15])
              [true; false] = true) by (vm_compute; reflexivity).
  rewrite forallb_forall in K.
  assert (Il : In l [true; false]) by (destruct l; simpl; auto).
  specialize (K l Il). rewrite forallb_forall in K. specialize (K n I).
  apply andb_prop in K. destruct K as [K1 K2]. apply Z.eqb_eq in K2.
  split; assumption.
Qed.

Lemma pct_loop_quote_byte (l : bool) (b : Z) (rest : pystr) :
  0 <= b < 256 -> pct_loop (quote_byte l b ++ rest) = b :: pct_loop rest.
Proof.
  intros H. unfold quote_byte. cbn [app].
  assert (H1 : 0 <= b / 16 < 16) by (Z.div_mod_to_equations; lia).
  assert (H2 : 0 <= b mod 16 < 16) by (Z.div_mod_to_equations; lia).
  destruct (hex_digit_value l _ H1) as [X1 V1].
  destruct (hex_digit_value l _ H2) as [X2 V2].
  rewrite (pct_loop_valid_triplet _ _ rest X1 X2), V1, V2. f_equal.
  Z.div_mod_to_equations. lia.
Qed.

Lemma pct_loop_quote_bytes (l : bool) (bs : list Z) (rest : pystr) :
  Forall (fun b => 0 <= b < 256) bs ->
  pct_loop (List.concat (List.map (quote_byte l) bs) ++ rest) = bs ++ pct_loop rest.
Proof.
  induction 1 as [| b bs H _ IH]; [reflexivity |].
  cbn [List.map List.concat]. rewrite <- app_assoc.
  rewrite (pct_loop_quote_byte l b _ H), IH. reflexivity.
Qed.

Ltac decide_tests :=
  repeat match goal with
         | |- context [?a <? ?b] =>
             destruct (Z.ltb_spec a b);
             try (exfalso; Z.div_mod_to_equations; lia)
         | |- context [?a <=? ?b] =>
             destruct (Z.leb_spec a b);
             try (exfalso; Z.div_mod_to_equations; lia)
         | |- context [?a =? ?b] =>
             destruct (Z.eqb_spec a b);
             try (exfalso; Z.div_mod_to_equations; lia)
         end.

(** The bytes of a scalar value are bytes. *)
Lemma utf8_encode_char_bytes (c : Z) :
  scalar c -> Forall (fun b => 0 <= b < 256) (utf8_encode_char c).
Proof.
  intros S. unfold scalar in S. unfold utf8_encode_char.
  decide_tests; cbn [andb]; repeat constructor;
    Z.div_mod_to_equations; lia.
Qed.

Lemma utf8_encode_char_nonempty (c : Z) : scalar c -> utf8_encode_char c <> [].
Proof.
  intros S. unfold scalar in S. unfold utf8_encode_char.
  decide_tests; cbn [andb]; discriminate.
Qed.

(** The decoder reads back the encoding of a scalar value. *)
Lemma utf8_decode_encode_char (c : Z) (bs : list Z) :
  scalar c ->
  utf8_decode_replace (utf8_encode_char c ++ bs) = c :: utf8_decode_replace bs.
Proof.
  intros S. unfold scalar in S. unfold utf8_encode_char.
  destruct (Z.ltb_spec c 128).
  { cbn [app utf8_decode_replace].
    destruct (Z.ltb_spec c 128); [reflexivity | lia]. }
  destruct (Z.ltb_spec c 2048).
  { cbn [app utf8_decode_replace]. unfold is_cont.
    decide_tests; cbn [andb]; f_equal; Z.div_mod_to_equations; lia. }
  destruct (Z.leb_spec 55296 c); destruct (Z.leb_spec c 57343); cbn [andb];
    try lia.
  - destruct (Z.ltb_spec c 65536).
    + cbn [app utf8_decode_replace]. unfold is_cont.
      decide_tests; cbn [andb orb negb]; f_equal; Z.div_mod_to_equations; lia.
    + cbn [app utf8_decode_replace]. unfold is_cont.
      decide_tests; cbn [andb orb negb]; f_equal; Z.div_mod_to_equations; lia.
  - destruct (Z.ltb_spec c 65536); [| lia].
    cbn [app utf8_decode_replace]. unfold is_cont.
    decide_tests; cbn [andb orb negb]; f_equal; Z.div_mod_to_equations; lia.
Qed.

Lemma utf8_decode_encode (s : pystr) :
  Forall scalar s -> utf8_decode_replace (utf8_encode s) = s.
Proof.
  induction 1 as [| c s H _ IH]; [reflexivity |].
  unfold utf8_encode in *. cbn [List.map List.concat].
  rewrite (utf8_decode_encode_char c _ H), IH. reflexivity.
Qed.


Lemma pct_loop_quote (keep : Z -> bool) (l : bool) (s : pystr) :
  Forall scalar s -> pct_loop (quote keep l s) = utf8_encode s.
Proof.
  induction 1 as [| c s H _ IH]; [reflexivity |].
  unfold quote, utf8_encode in *. cbn [List.map List.concat].
  unfold quote_char at 1.
  destruct (keep c && (c <? 128) && negb (c =? 37)) eqn:K.
  - apply andb_prop in K. destruct K as [K K3].
    apply andb_prop in K. destruct K as [_ K2].
    apply negb_true_iff in K3.
    cbn [app pct_loop]. rewrite K3, IH.
    unfold utf8_encode_char. rewrite K2. reflexivity.
  - rewrite (pct_loop_quote_bytes l _ _ (utf8_encode_char_bytes c H)), IH.
    reflexivity.
Qed.

Lemma quote_byte_percent (l : bool) (bs : list Z) (rest : pystr) :
  bs <> [] ->
  contains (List.concat (List.map (quote_byte l) bs) ++ rest) 37 = true.
Proof. destruct bs as [| b bs]; [contradiction | reflexivity]. Qed.

(** An encoding without a percent sign is the string itself. *)
Lemma quote_without_percent (keep : Z -> bool) (l : bool) (s : pystr) :
  Forall scalar s -> contains (quote keep l s) 37 = false -> quote keep l s = s.
Proof.
  induction 1 as [| c s H _ IH]; [reflexivity |].
  unfold quote in *. cbn [List.map List.concat]. intros C.
  unfold quote_char in C |- * at 1.
  destruct (keep c && (c <? 128) && negb (c =? 37)).
  - cbn [app] in *. unfold contains in C |- *. cbn [existsb] in C.
    apply orb_false_iff in C. destruct C as [_ C]. rewrite (IH C). reflexivity.
  - rewrite (quote_byte_percent l _ _ (utf8_encode_char_nonempty c H)) in C.
    discriminate.
Qed.

(** X18: [pct_decode] inverts percent-encoding.  For every string of
    Unicode scalar values, whichever ASCII characters other than the
    percent sign the encoder leaves as they are, and whichever case it uses
    for the hexadecimal digits, decoding the percent-encoded UTF-8 form of
    the string gives the string back. *)
Theorem pct_decode_quote (keep : Z -> bool) (lower_case : bool) (s : pystr) :
  Forall scalar s -> pct_decode (quote keep lower_case s) = s.
Proof.
  intros S. unfold pct_decode.
  destruct (negb (truthy (quote keep lower_case s))
            || negb (contains (quote keep lower_case s) 37)) eqn:E.
  - apply orb_prop in E. destruct E as [E | E]; apply negb_true_iff in E.
    + destruct s as [| c s]; [reflexivity |]. exfalso.
      inversion S as [| ? ? Sc _]; subst.
      unfold quote in E. cbn [List.map List.concat] in E. unfold quote_char in E.
      destruct (keep c && (c <? 128) && negb (c =? 37)); [discriminate |].
      pose proof (utf8_encode_char_nonempty c Sc) as N.
      destruct (utf8_encode_char c); [contradiction | discriminate].
    + apply quote_without_percent; assumption.
  - rewrite (pct_loop_quote keep lower_case s S). apply utf8_decode_encode, S.
Qed.

Lemma pct_decode_quote_witness :
  pct_decode (quote (fun c => negb (c =? 32)) false [82; 233; 115; 32; 37; 8364])
  = [82; 233; 115; 32; 37; 8364].
Proof.
  apply (pct_decode_quote (fun c => negb (c =? 32)) false [82; 233; 115; 32; 37; 8364]).
  repeat constructor; unfold scalar; lia.
Defined.


(** ** The formats present *)











(** ** An export that cannot be written *)

Lemma write_csv_not_opened (out : pystr) (rows : list Row) (w : World) :
  open_wb (fs w) (path_parse out) = None ->
  write_csv out rows w
  = {| outcome := Raise (OSError (py "open")); world := w; emitted := [] |}.
Proof.
  intros O. unfold write_csv.
  assert (B : fopen (path_parse out) w
              = {| outcome := Raise (OSError (py "open")); world := w;
                   emitted := [] |}).
  { unfold fopen, fs_call. rewrite O. reflexivity. }
  rewrite (bind_raise (fopen (path_parse out)) _ w _ (f_equal outcome B)), B.
  reflexivity.
Qed.

(** X20: an export that cannot be opened.  When the group has datasets, the
    listing gave at least one row and a CSV destination was given that
    cannot be opened for writing (it is a directory, or its directory does
    not exist), the whole listing is printed first and then
    [action_list_group] raises the operating-system error: nothing is
    written, no export is reported, and [main] ends with exit code 1 and
    the error line. *)
Theorem action_list_group_export_fails (args_base args_group : pystr)
    (args_format args_csv : option pystr) (w : World) (res : json)
    (pkg : Package) (rest : list Package) (rows : list Row) (out : pystr) :
  let base := rstrip_char 47 args_base in
  let show := ckan_group_show base args_group true w in
  let listing :=
    list_packages base (normalized_filter args_format) (length (pkg :: rest)) 1
      (pkg :: rest) [] (world show) in
  let action := action_list_group args_base args_group args_format args_csv in
  outcome show = Ok res ->
  get_packages res = pkg :: rest ->
  outcome listing = Ok rows ->
  rows <> [] ->
  opt_or args_csv None = Some out ->
  open_wb (fs w) (path_parse out) = None ->
  action w
  = {| outcome := Raise (OSError (py "open"));
       world := after_requests (1 + length (pkg :: rest)) w;
       emitted := emitted show ++ emitted listing |}
  /\ main_run action w
     = {| outcome := Ok 1;
          world := after_requests (1 + length (pkg :: rest)) w;
          emitted := (emitted show ++ emitted listing)
                     ++ [EvPrint (MsgError (OSError (py "open")))] |}.
Proof.
  intros base show listing action H1 H2 H3 N C O.
  assert (W : world listing = after_requests (1 + length (pkg :: rest)) w).
  { unfold listing. rewrite (list_packages_world _ _ _ _ _ _ _ _ H3).
    unfold show, ckan_group_show. rewrite ckan_call_world.
    apply after_requests_add. }
  assert (A : action w
              = {| outcome := Raise (OSError (py "open"));
                   world := after_requests (1 + length (pkg :: rest)) w;
                   emitted := emitted show ++ emitted listing |}).
  { unfold action.
    rewrite (action_list_group_run args_base args_group args_format args_csv w res
               pkg rest rows H1 H2 H3).
    fold base. fold show. fold listing. rewrite C.
    destruct rows as [| row rows']; [contradiction |].
    assert (O' : open_wb (fs (world listing)) (path_parse out) = None)
      by (rewrite W; exact O).
    rewrite (bind_raise (write_csv out (row :: rows')) _ _ _
               (f_equal outcome (write_csv_not_opened out (row :: rows') _ O'))).
    rewrite (write_csv_not_opened out (row :: rows') _ O').
    cbn [outcome world emitted]. rewrite W, app_nil_r. reflexivity. }
  split; [exact A |].
  rewrite (main_run_raise action w _ (f_equal outcome A)), A. reflexivity.
Qed.

Lemma action_list_group_export_fails_witness :
  outcome (main_run (action_list_group (py "http://host/") (py "teses")
                       (Some (py "xlsx")) (Some (py "missing/out.csv")))
             group_world)
  = Ok 1
  /\ fs (world (main_run (action_list_group (py "http://host/") (py "teses")
                            (Some (py "xlsx")) (Some (py "missing/out.csv")))
                  group_world)) = ∅.
Proof.
  pose (res := outcome (list_packages (py "http://host") (py "xlsx") 1 1
                          [package_example] [] (after_requests 1 group_world))).
  pose (rows := match res with Ok rows => rows | Raise _ => [] end).
  destruct (action_list_group_export_fails (py "http://host/") (py "teses")
              (Some (py "xlsx")) (Some (py "missing/out.csv")) group_world
              group_example package_example [] rows (py "missing/out.csv"))
    as [_ E].
  - vm_compute. reflexivity.
  - vm_compute. reflexivity.
  - vm_compute. reflexivity.
  - vm_compute. discriminate.
  - reflexivity.
  - vm_compute. reflexivity.
  - rewrite E. split; reflexivity.
Defined.
